(** * Harmony Hub remote: a shallow embedding of
    [custom_components/remote/harmony.py] and the properties of its
    name resolution, command sequencing, connection tracking, config
    persistence and discovery merge.

    Conventions of the embedding.
    - A [string] is a Python [str] whose code points are all below 256,
      one character for each code point: ASCII text, and also the
      superscript digits and the no-break space of Latin-1. On these
      texts [isdigit], [int] and [strip] below are the Python built-ins.
      Text with code points from 256 on is outside the type.
    - Python [int] values are [Z]; the per-command delay is a Python
      [float], modelled by the kernel's binary64 [float].
    - The aioharmony client ([self._client]) is an external library. It
      appears as a record of what the component observes of it.
    - A method is an action on a [World]: the manager object, the files
      below the configuration directory, and the outcomes of the I/O
      requests yet to come. An action returns or raises, and emits the
      calls it makes on its collaborators (logger, client, state engine,
      file system) as an ordered trace. *)

From Stdlib Require Import ZArith Ascii String Floats.PrimFloat.
From stdpp Require Import base option list strings gmap.

Local Open Scope string_scope.
Local Open Scope list_scope.
Local Open Scope Z_scope.

(** ** Python strings *)

Module PyStr.

Definition is_ascii_digit (c : ascii) : bool :=
  let n := nat_of_ascii c in (48 <=? n)%nat && (n <=? 57)%nat.

(** The superscript digits of Latin-1: U+00B2, U+00B3 and U+00B9. They
    are digits for [str.isdigit], and no decimal digits: [int] does not
    take them. *)
Definition is_superscript_digit (c : ascii) : bool :=
  let n := nat_of_ascii c in
  (n =? 178)%nat || (n =? 179)%nat || (n =? 185)%nat.

(** The characters below 256 for which [str.isspace] holds: TAB, LF,
    VT, FF, CR, the four separators FS, GS, RS, US, the blank, NEL
    (U+0085) and the no-break space (U+00A0). *)
Definition is_space (c : ascii) : bool :=
  let n := nat_of_ascii c in
  ((9 <=? n)%nat && (n <=? 13)%nat)
  || ((28 <=? n)%nat && (n <=? 32)%nat)
  || (n =? 133)%nat || (n =? 160)%nat.

Fixpoint all_chars (p : ascii -> bool) (s : string) : bool :=
  match s with
  | EmptyString => true
  | String c s' => p c && all_chars p s'
  end.

(** [str.isdecimal]: at least one character, and only the decimal
    digits 0 to 9. *)
Definition isdecimal (s : string) : bool :=
  match s with
  | EmptyString => false
  | String _ _ => all_chars is_ascii_digit s
  end.

(** [str.isdigit]: at least one character, and only digits, decimal or
    superscript. *)
Definition isdigit (s : string) : bool :=
  match s with
  | EmptyString => false
  | String _ _ =>
      all_chars (fun c => is_ascii_digit c || is_superscript_digit c) s
  end.

Fixpoint lstrip (s : string) : string :=
  match s with
  | EmptyString => EmptyString
  | String c s' => if is_space c then lstrip s' else s
  end.

(** Drops the white space at the end: a character stays when it is
    not white space or when something stays after it. *)
Fixpoint rstrip (s : string) : string :=
  match s with
  | EmptyString => EmptyString
  | String c s' =>
      match rstrip s' with
      | EmptyString => if is_space c then EmptyString
                       else String c EmptyString
      | r => String c r
      end
  end.

(** [str.strip()] *)
Definition strip (s : string) : string := rstrip (lstrip s).

Definition digit_value (c : ascii) : Z := Z.of_nat (nat_of_ascii c) - 48.

Fixpoint digits_value (acc : Z) (s : string) : Z :=
  match s with
  | EmptyString => acc
  | String c s' => digits_value (10 * acc + digit_value c) s'
  end.

(** [int(s)] on the texts the component passes to it, those that
    [isdigit] accepts and ["-1"]: the value of decimal digits with an
    optional minus sign. [None] stands for the [ValueError] that [int]
    raises, as it does on a superscript digit. *)
Definition int (s : string) : option Z :=
  match s with
  | String "-" s' => if isdecimal s' then Some (- digits_value 0 s') else None
  | _ => if isdecimal s then Some (digits_value 0 s) else None
  end.

(** Truth value of a string: empty is false. *)
Definition truthy (s : string) : bool :=
  match s with EmptyString => false | _ => true end.

(** Truth value of an optional string: [None] and [''] are false. *)
Definition truthy_opt (o : option string) : bool :=
  match o with Some s => truthy s | None => false end.

End PyStr.

(** ** Values exchanged with the client *)

(** What [logging] formats into a message. *)
Inductive LogArg : Type :=
| AStr (s : string)
| AInt (z : Z)
| AFloat (d : float)
| ANone
| AHost (name address : option string) (port : Z)
| AIOError.

Definition arg_of_opt (o : option string) : LogArg :=
  match o with Some s => AStr s | None => ANone end.

Inductive LogLevel : Type := DEBUG | INFO | WARNING | ERROR.

(** [SendCommandDevice(device=..., command=..., delay=...)] *)
Record SendCommandDevice : Type := mkSendCommandDevice {
  scd_device : string;
  scd_command : string;
  scd_delay : Z
}.

(** An element of [snd_cmnd_list]: a command to send, or a pause in
    seconds. *)
Inductive CommandStep : Type :=
| Send (c : SendCommandDevice)
| Delay (secs : float).

(** An element of the result list of [send_commands]: a step that
    failed. Its [command] is the [SendCommandDevice] that was sent; the
    result code and the message are the result's own, and the component
    does not read them there. *)
Record SendCommandResponse : Type := mkSendCommandResponse {
  res_command : SendCommandDevice;
  res_code : Z;
  res_msg : string
}.

(** The identifier handed to [start_activity]: the caller's own text
    when it names a known ID, or the ID the client found for a name. *)
Inductive HubRef : Type :=
| RawId (text : string)
| FoundId (id : Z).

(** What the component observes of the aioharmony client. *)
Record HarmonyAPI : Type := mkHarmonyAPI {
  get_activity_name : Z -> option string;
  get_activity_id : string -> option Z;
  get_device_name : Z -> option string;
  get_device_id : string -> option Z;
  current_activity : option Z * option string;
  (** whether [self._client.config] is true *)
  config_loaded : bool;
  (** the text [json.dump(json_config, sort_keys=True, indent=4)] writes *)
  json_config : string;
  (** the result list of [send_commands] *)
  send_commands : list CommandStep -> list SendCommandResponse
}.

(** ** The manager object *)

Record HarmonyRemote : Type := mkHarmonyRemote {
  _name : option string;
  host : option string;
  port : Z;
  _state : option bool;
  _current_activity : option string;
  _default_activity : option string;
  _client : HarmonyAPI;
  _config_path : string;
  _delay_secs : float;
  _available : bool
}.

Definition set_state (v : option bool) (r : HarmonyRemote) : HarmonyRemote :=
  mkHarmonyRemote (_name r) (host r) (port r) v (_current_activity r)
    (_default_activity r) (_client r) (_config_path r) (_delay_secs r)
    (_available r).

Definition set_current_activity (v : option string) (r : HarmonyRemote)
  : HarmonyRemote :=
  mkHarmonyRemote (_name r) (host r) (port r) (_state r) v
    (_default_activity r) (_client r) (_config_path r) (_delay_secs r)
    (_available r).

Definition set_available (v : bool) (r : HarmonyRemote) : HarmonyRemote :=
  mkHarmonyRemote (_name r) (host r) (port r) (_state r)
    (_current_activity r) (_default_activity r) (_client r)
    (_config_path r) (_delay_secs r) v.

(** ** Actions: state, trace and exceptions *)

Inductive Exn : Type := ValueError | AttributeError | PlatformNotReady.

(** How an [open(path, 'w+')] followed by [json.dump] ends: the file
    holds the whole text; [open] raises [IOError] and the file is left
    as it was; or the file is truncated, [written] characters reach it
    and [json.dump] raises [IOError]. *)
Inductive IOResult : Type :=
| WriteOk
| OpenFails
| DumpFails (written : nat).

(** The calls a method makes on its collaborators. The trace also
    records each assignment to [self._available], the one field that the
    callbacks of the client write while others are under way. *)
Inductive Effect : Type :=
| Log (level : LogLevel) (fmt : string) (args : list LogArg)
| schedule_update_ha_state (force_refresh : bool)
| bus_listen_once_stop
| client_connect
| client_get_config
| client_sync
| client_start_activity (activity_id : HubRef)
| client_power_off
| client_send_commands (snd_cmnd_list : list CommandStep)
| file_open_w (path : string)
| assign_available (value : bool)
| async_add_entities (names : list (option string))
| services_async_register (service : string).

Inductive Outcome (A : Type) : Type :=
| Returned (a : A)
| Raised (e : Exn).
Arguments Returned {A} a.
Arguments Raised {A} e.

Record Act (S A : Type) : Type := mkAct {
  run : S -> Outcome A * S * list Effect
}.
Arguments mkAct {S A} run.
Arguments run {S A} a s.

Section ActMonad.
Context {S : Type}.

Definition act_ret {A} (a : A) : Act S A := mkAct (fun s => (Returned a, s, [])).

Definition act_bind {A B} (f : A -> Act S B) (m : Act S A) : Act S B :=
  mkAct (fun s =>
    match run m s with
    | (Returned a, s1, t1) =>
        let '(o, s2, t2) := run (f a) s1 in (o, s2, t1 ++ t2)
    | (Raised e, s1, t1) => (Raised e, s1, t1)
    end).

Definition get : Act S S := mkAct (fun s => (Returned s, s, [])).
Definition modify (f : S -> S) : Act S unit :=
  mkAct (fun s => (Returned tt, f s, [])).
Definition emit (e : Effect) : Act S unit :=
  mkAct (fun s => (Returned tt, s, [e])).
Definition raise {A} (e : Exn) : Act S A :=
  mkAct (fun s => (Raised e, s, [])).

(** [try: body except (ValueError, AttributeError): handler] *)
Definition try_except {A} (body : Act S A) (caught : Exn -> bool)
    (handler : Act S A) : Act S A :=
  mkAct (fun s =>
    match run body s with
    | (Raised e, s1, t1) =>
        if caught e
        then let '(o, s2, t2) := run handler s1 in (o, s2, t1 ++ t2)
        else (Raised e, s1, t1)
    | r => r
    end).
End ActMonad.

#[global] Instance Act_ret {S} : MRet (Act S) := fun A => @act_ret S A.
#[global] Instance Act_bind {S} : MBind (Act S) := fun A B => @act_bind S A B.

Definition log {S} (level : LogLevel) (fmt : string) (args : list LogArg)
  : Act S unit := emit (Log level fmt args).

(** The trace and the final state of an action. *)
Definition trace_of {S A} (a : Act S A) (s : S) : list Effect := (run a s).2.
Definition state_of {S A} (a : Act S A) (s : S) : S := (run a s).1.2.
Definition outcome_of {S A} (a : Act S A) (s : S) : Outcome A := (run a s).1.1.

(** ** The world of one manager *)

Record World : Type := mkWorld {
  self : HarmonyRemote;
  files : gmap string string;
  io_outcomes : list IOResult
}.

Definition update_self (f : HarmonyRemote -> HarmonyRemote) : Act World unit :=
  modify (fun w => mkWorld (f (self w)) (files w) (io_outcomes w)).

Definition get_self : Act World HarmonyRemote := w ← get; mret (self w).

(** The outcome of the next I/O request; requests beyond the script
    succeed. *)
Definition next_io : Act World IOResult :=
  w ← get;
  match io_outcomes w with
  | [] => mret WriteOk
  | io :: rest =>
      modify (fun w => mkWorld (self w) (files w) rest);; mret io
  end.

Definition store_file (path text : string) : Act World unit :=
  modify (fun w => mkWorld (self w) (<[path := text]> (files w)) (io_outcomes w)).

(** ** [class HarmonyRemote] *)

(** [__init__]: the client is built by aioharmony from [host] and the
    four callbacks; it is passed in here. The two debug lines of the
    constructor are written where it is called, in [load_platform]. *)
Definition __init__ (client : HarmonyAPI) (name host : option string)
    (port : Z) (activity : option string) (out_path : string)
    (delay_secs : float) : HarmonyRemote :=
  {| _name := name;
     host := host;
     port := port;
     _state := None;
     _current_activity := None;
     _default_activity := activity;
     _client := client;
     _config_path := out_path;
     _delay_secs := delay_secs;
     _available := true |}.

Definition name (self : HarmonyRemote) : option string := _name self.

Definition should_poll (self : HarmonyRemote) : bool := false.

Definition device_state_attributes (self : HarmonyRemote)
  : list (string * option string) :=
  [("current_activity", _current_activity self)].

(** [self._current_activity not in [None, 'PowerOff']] *)
Definition is_on (self : HarmonyRemote) : bool :=
  negb (bool_decide (_current_activity self ∈ [None; Some "PowerOff"])).

Definition available (self : HarmonyRemote) : bool := _available self.

(** [bool(self._current_activity != 'PowerOff')] *)
Definition not_power_off (activity_name : option string) : bool :=
  bool_decide (activity_name ≠ Some "PowerOff").

Definition write_config_file : Act World unit :=
  self ← get_self;
  log DEBUG "%s: Writing hub config to file: %s"
    [arg_of_opt (name self); AStr (_config_path self)];;
  io ← next_io;
  emit (file_open_w (_config_path self));;
  match io with
  | WriteOk => store_file (_config_path self) (json_config (_client self))
  | OpenFails =>
      log ERROR "%s: Unable to write HUB configuration to %s: %s"
        [arg_of_opt (name self); AStr (_config_path self); AIOError]
  | DumpFails written =>
      store_file (_config_path self)
        (String.substring 0 written (json_config (_client self)));;
      log ERROR "%s: Unable to write HUB configuration to %s: %s"
        [arg_of_opt (name self); AStr (_config_path self); AIOError]
  end.

Definition async_update : Act World unit :=
  self ← get_self;
  log DEBUG "Updating Harmony." [];;
  (if config_loaded (_client self) then mret tt else emit client_get_config);;
  let '(activity_id, activity_name) := current_activity (_client self) in
  log DEBUG "%s activity reported as: %s"
    [arg_of_opt (_name self); arg_of_opt activity_name];;
  update_self (set_current_activity activity_name);;
  update_self (set_state (Some (not_power_off activity_name))).

Definition new_activity (activity_info : option Z * option string)
  : Act World unit :=
  let '(activity_id, activity_name) := activity_info in
  self ← get_self;
  log DEBUG "%s activity reported as: %s"
    [arg_of_opt (_name self); arg_of_opt activity_name];;
  update_self (set_current_activity activity_name);;
  update_self (set_state (Some (not_power_off activity_name)));;
  emit (schedule_update_ha_state false).

Definition new_config : Act World unit :=
  self ← get_self;
  log DEBUG "%s configuration has been updated" [arg_of_opt (_name self)];;
  new_activity (current_activity (_client self));;
  update_self (set_current_activity (current_activity (_client self)).2);;
  update_self (set_state
    (Some (not_power_off (current_activity (_client self)).2)));;
  emit (schedule_update_ha_state false);;
  write_config_file.

(** [self._available = value]: the field is written and the trace
    records the assignment at its place. *)
Definition store_available (value : bool) : Act World unit :=
  update_self (set_available value);;
  emit (assign_available value).

Definition got_connected : Act World unit :=
  self ← get_self;
  log DEBUG "%s connected to the HUB." [arg_of_opt (_name self)];;
  (if negb (_available self) then new_config else mret tt);;
  store_available true.

(** A coroutine that has run up to an [await asyncio.sleep(secs)]: what
    is left of it runs when the timer fires. *)
Inductive Suspended : Type :=
| Sleep (secs : Z) (rest : Act World unit).

Definition got_disconnected : Act World Suspended :=
  self ← get_self;
  log DEBUG "%s disconnected from the HUB." [arg_of_opt (_name self)];;
  store_available false;;
  mret (Sleep 10
    (self ← get_self;
     if negb (_available self)
     then emit (schedule_update_ha_state false)
     else mret tt)).

Definition async_added_to_hass : Act World unit :=
  self ← get_self;
  log DEBUG "HarmonyRemote added for: %s" [arg_of_opt (_name self)];;
  emit bus_listen_once_stop;;
  log DEBUG "Connecting." [];;
  emit client_connect;;
  w ← get;
  (if bool_decide (is_Some (files w !! _config_path self))
   then mret tt else write_config_file);;
  new_activity (current_activity (_client self)).

(** Lines 267 to 276 of [async_turn_on]: the value of [activity_id]
    when the method tests it against [None]. *)
Definition resolve_activity (activity : string)
  : Act World (option HubRef) :=
  self ← get_self;
  activity_id ←
    (if PyStr.isdigit activity || bool_decide (activity = "-1") then
       log DEBUG "%s: Activity is numeric" [arg_of_opt (name self)];;
       match PyStr.int activity with
       | None => raise ValueError
       | Some n =>
           if PyStr.truthy_opt (get_activity_name (_client self) n)
           then mret (Some (RawId activity))
           else mret None
       end
     else mret None);
  match activity_id with
  | None =>
      log DEBUG "%s: Find activity ID based on name" [arg_of_opt (name self)];;
      mret (FoundId <$> get_activity_id (_client self) (PyStr.strip activity))
  | Some _ => mret activity_id
  end.

(** [kw_activity] is the [activity] of the service call, [None] when the
    call leaves it out. *)
Definition async_turn_on (kw_activity : option string) : Act World unit :=
  self ← get_self;
  log DEBUG "%s: Turn On" [arg_of_opt (name self)];;
  let activity :=
    match kw_activity with
    | Some a => Some a
    | None => _default_activity self
    end in
  if PyStr.truthy_opt activity then
    activity_id ← resolve_activity (default "" activity);
    match activity_id with
    | None =>
        log ERROR "%s: Activity %s is invalid"
          [arg_of_opt (name self); arg_of_opt activity]
    | Some activity_id =>
        emit (client_start_activity activity_id);;
        update_self (set_state (Some true))
    end
  else
    log ERROR "%s: No activity specified with turn_on service"
      [arg_of_opt (name self)].

Definition async_turn_off : Act World unit :=
  self ← get_self;
  log DEBUG "%s: Turn Off" [arg_of_opt (name self)];;
  emit client_power_off.

(** The list built by the two nested loops of [async_send_command]:
    [for _ in range(num_repeats): for single_command in command: ...]. *)
Definition snd_cmnd_list (device : string) (command : list string)
    (num_repeats : Z) (delay_secs : float) : list CommandStep :=
  flat_map (fun _ : Z =>
    flat_map (fun single_command =>
      Send (mkSendCommandDevice device single_command 0)
      :: (if PrimFloat.ltb 0%float delay_secs
          then [Delay delay_secs] else []))
      command)
    (seqZ 0 num_repeats).

(** Reading an attribute that the object does not have. *)
Definition no_such_attribute {S A} : Act S A := raise AttributeError.

(** The body of the loop over [result_list], lines 339 to 345. The
    arguments of the warning are evaluated before the logger is called:
    [result.command] is a [SendCommandDevice], which has the attributes
    [device], [command] and [delay], so that reading its [code] raises
    [AttributeError]. *)
Definition result_warning (result : SendCommandResponse) : Act World unit :=
  let command := scd_command (res_command result) in
  let device := scd_device (res_command result) in
  code ← no_such_attribute;
  msg ← no_such_attribute;
  log WARNING "Sending command %s to device %s failed with code %s: %s"
    [AStr command; AStr device; code; msg].

Fixpoint for_each {S A} (l : list A) (body : A -> Act S unit) : Act S unit :=
  match l with
  | [] => mret tt
  | x :: l' => body x;; for_each l' body
  end.

(** Lines 304 to 314 of [async_send_command]: the value of [device_id]
    when the method tests it against [None]. *)
Definition resolve_device (device : string)
  : Act World (option HubRef) :=
  self ← get_self;
  device_id ←
    (if PyStr.isdigit device then
       log DEBUG "%s: Device %s is numeric"
         [arg_of_opt (name self); AStr device];;
       match PyStr.int device with
       | None => raise ValueError
       | Some n =>
           if PyStr.truthy_opt (get_device_name (_client self) n)
           then mret (Some (RawId device))
           else mret None
       end
     else mret None);
  match device_id with
  | None =>
      log DEBUG "%s: Find device ID %s based on device name"
        [arg_of_opt (name self); AStr device];;
      mret (FoundId <$> get_device_id (_client self) (PyStr.strip device))
  | Some _ => mret device_id
  end.

(** [kw_device] and [kw_delay_secs] are the [device] and [delay_secs]
    of the service call, [None] when the call leaves them out;
    [kw_num_repeats] is its [num_repeats], which the schema of the
    [send_command] service always supplies. *)
Definition async_send_command (command : list string)
    (kw_device : option string) (kw_num_repeats : Z)
    (kw_delay_secs : option float) : Act World unit :=
  self ← get_self;
  log DEBUG "%s: Send Command" [arg_of_opt (name self)];;
  match kw_device with
  | None =>
      log ERROR "%s: Missing required argument: device"
        [arg_of_opt (name self)]
  | Some device =>
      device_id ← resolve_device device;
      match device_id with
      | None =>
          log ERROR "%s: Device %s is invalid"
            [arg_of_opt (name self); AStr device]
      | Some _ =>
          let num_repeats := kw_num_repeats in
          let delay_secs := default (_delay_secs self) kw_delay_secs in
          let steps := snd_cmnd_list device command num_repeats delay_secs in
          log DEBUG "%s: Sending commands" [arg_of_opt (name self)];;
          emit (client_send_commands steps);;
          for_each (send_commands (_client self) steps) result_warning
      end
  end.

Definition sync : Act World unit :=
  self ← get_self;
  log DEBUG "%s: Syncing hub with Harmony servers" [arg_of_opt (name self)];;
  emit client_sync;;
  write_config_file.

(** ** The callbacks on a time line

    The client delivers its callbacks on the event loop. A callback runs
    to its end or to its first [await]; [asyncio.sleep(secs)] hands the
    rest of the coroutine to a timer that fires [secs] seconds later. A
    callback that arrives at the very instant a timer is due runs first.
    The state engine writes the entity's state once the callback that
    asked for it has returned, and reads [available] then. *)

Inductive Callback : Type :=
| Connected
| Disconnected
| ActivityChanged (activity_info : option Z * option string)
| ConfigUpdated.

(** A state written to the observers, with the time of the write. *)
Record StateWrite : Type := mkStateWrite {
  sw_time : Z;
  sw_available : bool;
  sw_is_on : bool
}.

Definition state_writes (now : Z) (w : World) (t : list Effect)
  : list StateWrite :=
  flat_map (fun e =>
    match e with
    | schedule_update_ha_state _ =>
        [mkStateWrite now (available (self w)) (is_on (self w))]
    | _ => []
    end) t.

(** Runs one callback at [now]: the world after it, the timer it
    leaves behind, and the states written. *)
Definition deliver (now : Z) (cb : Callback) (w : World)
  : World * list (Z * Act World unit) * list StateWrite :=
  match cb with
  | Disconnected =>
      match run got_disconnected w with
      | (Returned (Sleep secs rest), w', t) =>
          (w', [(now + secs, rest)], state_writes now w' t)
      | (Raised _, w', t) => (w', [], state_writes now w' t)
      end
  | Connected =>
      let '(_, w', t) := run got_connected w in (w', [], state_writes now w' t)
  | ActivityChanged info =>
      let '(_, w', t) := run (new_activity info) w in
      (w', [], state_writes now w' t)
  | ConfigUpdated =>
      let '(_, w', t) := run new_config w in (w', [], state_writes now w' t)
  end.

(** Fires, in order, the timers of [timers] for which [due] holds. *)
Fixpoint fire (due : Z -> bool) (timers : list (Z * Act World unit))
    (w : World) : World * list (Z * Act World unit) * list StateWrite :=
  match timers with
  | [] => (w, [], [])
  | (at_, rest) :: timers' =>
      if due at_ then
        let '(_, w1, t) := run rest w in
        let '(w2, pending, writes) := fire due timers' w1 in
        (w2, pending, state_writes at_ w1 t ++ writes)
      else
        let '(w2, pending, writes) := fire due timers' w in
        (w2, (at_, rest) :: pending, writes)
  end.

(** The event loop over a list of timed callbacks, then over the timers
    that are still pending when the callbacks end. *)
Fixpoint event_loop (events : list (Z * Callback))
    (timers : list (Z * Act World unit)) (w : World) : list StateWrite :=
  match events with
  | [] => (fire (fun _ => true) timers w).2
  | (now, cb) :: events' =>
      let '(w1, pending, writes1) := fire (fun at_ => at_ <? now) timers w in
      let '(w2, started, writes2) := deliver now cb w1 in
      writes1 ++ writes2 ++ event_loop events' (pending ++ started) w2
  end.

(** The times at which the observers were told the hub is unavailable. *)
Definition unavailable_pushes (writes : list StateWrite) : list Z :=
  sw_time <$> filter (fun sw => sw_available sw = false) writes.

(** ** Platform setup and the discovery merge *)

Definition DEFAULT_PORT : Z := 8088.
Definition CONF_DEVICE_CACHE : string := "harmony_device_cache".
Definition SERVICE_SYNC : string := "harmony_sync".

(** A platform configuration that passed [PLATFORM_SCHEMA]: the name is
    required, the delay and the port have defaults. *)
Record Config : Type := mkConfig {
  conf_activity : option string;
  conf_name : string;
  conf_delay_secs : float;
  conf_host : option string;
  conf_port : Z
}.

(** The keys of [discovery_info] that the platform reads. *)
Record DiscoveryInfo : Type := mkDiscoveryInfo {
  disc_name : option string;
  disc_host : option string
}.

(** The module's [DEVICES] list and [hass.data[CONF_DEVICE_CACHE]]
    ([None] while the key is absent). *)
Record Platform : Type := mkPlatform {
  DEVICES : list HarmonyRemote;
  device_cache : option (list Config)
}.

(** [(h.host, h.port) for h in DEVICES] *)
Definition known_addresses (devices : list HarmonyRemote)
  : list (option string * Z) :=
  (fun h => (host h, port h)) <$> devices.

Definition register_services : Act Platform unit :=
  emit (services_async_register SERVICE_SYNC).

Section Setup.
(** Supplied by Home Assistant and aioharmony. *)
Variable DEFAULT_DELAY_SECS : float.
Variable slugify : option string -> Outcome string.
Variable hass_config_path : string -> string.
Variable harmony_client : option string -> Outcome HarmonyAPI.

Definition lift_outcome {S A} (o : Outcome A) : Act S A :=
  match o with
  | Returned a => mret a
  | Raised e => raise e
  end.

(** [next((c for c in cache if c.get(CONF_NAME) == name), False)] *)
Definition find_override (cache : list Config) (name : option string)
  : option Config :=
  list_find (fun c => Some (conf_name c) = name) cache ≫= (fun ic => Some ic.2).

(** The part of [async_setup_platform] after the three-way branch. *)
Definition load_platform (name address : option string) (port : Z)
    (activity : option string) (delay_secs : float) : Act Platform unit :=
  log INFO "Loading Harmony Platform: %s at %s:%s, startup activity: %s"
    [arg_of_opt name; arg_of_opt address; AInt port; arg_of_opt activity];;
  slug ← lift_outcome (slugify name);
  let harmony_conf_file :=
    hass_config_path ("harmony_" +:+ slug +:+ ".conf") in
  try_except
    (log DEBUG "HarmonyRemote device init started for: %s" [arg_of_opt name];;
     client ← lift_outcome (harmony_client address);
     let device :=
       __init__ client name address port activity harmony_conf_file
         delay_secs in
     log DEBUG "HarmonyRemote device init completed for: %s"
       [arg_of_opt name];;
     modify (fun p => mkPlatform (DEVICES p ++ [device]) (device_cache p));;
     emit (async_add_entities [_name device]);;
     register_services)
    (fun e => match e with
              | ValueError | AttributeError => true
              | _ => false
              end)
    (raise PlatformNotReady).

Definition async_setup_platform (config : Config)
    (discovery_info : option DiscoveryInfo) : Act Platform unit :=
  p ← get;
  (if bool_decide (is_Some (device_cache p)) then mret tt
   else modify (fun p => mkPlatform (DEVICES p) (Some [])));;
  p ← get;
  let cache := default [] (device_cache p) in
  match discovery_info with
  | Some discovery_info =>
      let override := find_override cache (disc_name discovery_info) in
      let port :=
        match override with Some o => conf_port o | None => DEFAULT_PORT end in
      let delay_secs :=
        match override with
        | Some o => conf_delay_secs o
        | None => DEFAULT_DELAY_SECS
        end in
      let activity := override ≫= conf_activity in
      if bool_decide ((disc_host discovery_info, port)
                        ∈ known_addresses (DEVICES p))
      then
        log DEBUG "Discovered host already known: %s"
          [AHost (disc_name discovery_info) (disc_host discovery_info) port]
      else
        load_platform (disc_name discovery_info) (disc_host discovery_info)
          port activity delay_secs
  | None =>
      match conf_host config with
      | Some address =>
          load_platform (Some (conf_name config)) (Some address)
            (conf_port config) (conf_activity config)
            (conf_delay_secs config)
      | None =>
          modify (fun p => mkPlatform (DEVICES p) (Some (cache ++ [config])))
      end
  end.
End Setup.

(** ** Reading a trace *)

Definition is_client_call (e : Effect) : bool :=
  match e with
  | client_connect | client_get_config | client_sync
  | client_start_activity _ | client_power_off | client_send_commands _ => true
  | _ => false
  end.

Definition is_log (level : LogLevel) (e : Effect) : bool :=
  match e, level with
  | Log DEBUG _ _, DEBUG | Log INFO _ _, INFO
  | Log WARNING _ _, WARNING | Log ERROR _ _, ERROR => true
  | _, _ => false
  end.

(** The calls made on the client, in order. *)
Definition client_calls (t : list Effect) : list Effect :=
  List.filter is_client_call t.

(** The messages logged at [level], in order. *)
Definition logged (level : LogLevel) (t : list Effect) : list Effect :=
  List.filter (is_log level) t.

(** The paths opened for writing, in order. *)
Definition file_opens (t : list Effect) : list string :=
  flat_map (fun e => match e with file_open_w path => [path] | _ => [] end) t.

(** The outcome that the next I/O request of [w] will have. *)
Definition next_outcome (w : World) : IOResult :=
  match io_outcomes w with
  | [] => WriteOk
  | io :: _ => io
  end.

(** The manager after [new_config]: the activity that the client
    reports, stored twice. *)
Definition refreshed (me : HarmonyRemote) : HarmonyRemote :=
  let activity_name := (current_activity (_client me)).2 in
  set_state (Some (not_power_off activity_name))
    (set_current_activity activity_name
       (set_state (Some (not_power_off activity_name))
          (set_current_activity activity_name me))).

(** The port that [async_setup_platform] gives a discovered hub: the one
    of the cached configuration with the hub's name, or the default. *)
Definition discovered_port (p : Platform) (info : DiscoveryInfo) : Z :=
  match find_override (default [] (device_cache p)) (disc_name info) with
  | Some override => conf_port override
  | None => DEFAULT_PORT
  end.

(** ** Sample hubs *)

Module Sample.

(** A hub with the activities PowerOff (-1) and Watch TV (77) and the
    devices TV (12) and Amp (34); [send_commands] reports no failure. *)
Definition den_client : HarmonyAPI :=
  {| get_activity_name := fun id =>
       if id =? -1 then Some "PowerOff"
       else if id =? 77 then Some "Watch TV" else None;
     get_activity_id := fun label =>
       if String.eqb label "PowerOff" then Some (-1)
       else if String.eqb label "Watch TV" then Some 77 else None;
     get_device_name := fun id =>
       if id =? 12 then Some "TV"
       else if id =? 34 then Some "Amp" else None;
     get_device_id := fun label =>
       if String.eqb label "TV" then Some 12
       else if String.eqb label "Amp" then Some 34 else None;
     current_activity := (Some 77, Some "Watch TV");
     config_loaded := true;
     json_config := "{}";
     send_commands := fun _ => [] |}.

Definition den : World :=
  {| self := __init__ den_client (Some "Den") (Some "10.0.0.7") 8088 None
               "/config/harmony_den.conf" 1%float;
     files := ∅;
     io_outcomes := [] |}.

(** A hub whose activity table lacks the ID -1 and whose device table
    holds a device with the ID -1. It rejects every command: its
    [send_commands] reports each command sent as failed. *)
Definition attic_client : HarmonyAPI :=
  {| get_activity_name := fun id =>
       if id =? 77 then Some "Watch TV" else None;
     get_activity_id := fun label =>
       if String.eqb label "Watch TV" then Some 77 else None;
     get_device_name := fun id =>
       if id =? -1 then Some "Bridge"
       else if id =? 12 then Some "TV" else None;
     get_device_id := fun label =>
       if String.eqb label "Bridge" then Some (-1)
       else if String.eqb label "TV" then Some 12 else None;
     current_activity := (Some 77, Some "Watch TV");
     config_loaded := true;
     json_config := "{}";
     send_commands := fun steps =>
       flat_map (fun step =>
         match step with
         | Send c =>
             [mkSendCommandResponse c 1 "rejected"]
         | Delay _ => []
         end) steps |}.

(** The text ['\u00b2'], a superscript two. *)
Definition superscript_two : string := String "178" EmptyString.

(** A hub with an activity and a device that bear the superscript two
    as their name. *)
Definition lab_client : HarmonyAPI :=
  {| get_activity_name := fun id =>
       if id =? 5 then Some superscript_two else None;
     get_activity_id := fun label =>
       if String.eqb label superscript_two then Some 5 else None;
     get_device_name := fun id =>
       if id =? 6 then Some superscript_two else None;
     get_device_id := fun label =>
       if String.eqb label superscript_two then Some 6 else None;
     current_activity := (Some (-1), Some "PowerOff");
     config_loaded := true;
     json_config := "{}";
     send_commands := fun _ => [] |}.

Definition lab : World :=
  {| self := __init__ lab_client (Some "Lab") (Some "10.0.0.5") 8088 None
               "/config/harmony_lab.conf" 0.5%float;
     files := ∅;
     io_outcomes := [] |}.

(** A platform on which the den hub is set up, with a cached
    configuration that names no host. *)
Definition home : Platform :=
  {| DEVICES := [self den];
     device_cache :=
       Some [mkConfig (Some "Watch TV") "Den" 1%float None 8088] |}.

Definition attic : World :=
  {| self := __init__ attic_client (Some "Attic") (Some "10.0.0.9") 8088
               None "/config/harmony_attic.conf" 0%float;
     files := ∅;
     io_outcomes := [] |}.

End Sample.

(** ** The rest of [got_disconnected]

    What [got_disconnected] does once its [asyncio.sleep(10)] is over:
    lines 257 to 259. *)
Definition still_disconnected : Act World unit :=
  self ← get_self;
  if negb (_available self)
  then emit (schedule_update_ha_state false)
  else mret tt.

Definition is_disconnected (cb : Callback) : bool :=
  match cb with Disconnected => true | _ => false end.

Definition is_connection_event (cb : Callback) : bool :=
  match cb with Connected | Disconnected => true | _ => false end.

(** The requests for a state write, in order. *)
Definition state_pushes (t : list Effect) : list bool :=
  flat_map (fun e =>
    match e with schedule_update_ha_state force => [force] | _ => [] end) t.

(** The [Send] steps of a batch, in order. *)
Definition sends (steps : list CommandStep) : list SendCommandDevice :=
  flat_map (fun step => match step with Send c => [c] | Delay _ => [] end)
    steps.

(** The [Delay] steps of a batch, in order. *)
Definition delays (steps : list CommandStep) : list float :=
  flat_map (fun step => match step with Send _ => [] | Delay d => [d] end)
    steps.

(** The steps of one pass of the inner loop of [async_send_command]. *)
Definition one_pass (device : string) (command : list string) (D : float)
  : list CommandStep :=
  flat_map (fun single_command =>
    Send (mkSendCommandDevice device single_command 0)
    :: (if PrimFloat.ltb 0%float D then [Delay D] else []))
    command.

(** The entities handed to [async_add_entities], and the services
    registered, in order. *)
Definition added_entities (t : list Effect) : list (option string) :=
  flat_map (fun e =>
    match e with async_add_entities names => names | _ => [] end) t.

Definition registered_services (t : list Effect) : list string :=
  flat_map (fun e =>
    match e with services_async_register service => [service] | _ => [] end) t.

(** The platform once [hass.data] holds the cache key. *)
Definition with_cache (p : Platform) : Platform :=
  mkPlatform (DEVICES p) (Some (default [] (device_cache p))).

(** ** Services

    [DEVICES] holds the manager objects, each with the [entity_id] that
    Home Assistant gave it; the managers of one process share the file
    system. A service works on the objects in place: a device is named
    here by its position in [DEVICES]. *)

Record Entity : Type := mkEntity {
  entity_id : string;
  entity : HarmonyRemote
}.

Record Hass : Type := mkHass {
  hass_devices : list Entity;
  hass_files : gmap string string;
  hass_io : list IOResult
}.

(** Runs a method on the device at position [i]. *)
Definition on_device (i : nat) (method : Act World unit) : Act Hass unit :=
  mkAct (fun h =>
    match hass_devices h !! i with
    | None => (Returned tt, h, [])
    | Some d =>
        let '(o, w, t) :=
          run method (mkWorld (entity d) (hass_files h) (hass_io h)) in
        (o,
         mkHass (<[i := mkEntity (entity_id d) (self w)]> (hass_devices h))
           (files w) (io_outcomes w),
         t)
    end).

(** [[device for device in DEVICES if device.entity_id in entity_ids]],
    as positions counted from [i]. *)
Fixpoint selected (entity_ids : list string) (devices : list Entity)
    (i : nat) : list nat :=
  match devices with
  | [] => []
  | d :: rest =>
      if bool_decide (entity_id d ∈ entity_ids)
      then i :: selected entity_ids rest (S i)
      else selected entity_ids rest (S i)
  end.

(** The devices a service call works on: those named in [entity_ids],
    or all of them when the key is absent or the list is empty. *)
Definition _devices (entity_ids : option (list string))
    (devices : list Entity) : list nat :=
  match entity_ids with
  | Some (id :: ids) => selected (id :: ids) devices 0
  | _ => seq 0 (length devices)
  end.

(** The same choice as a list of devices: line 125 read as the list
    comprehension it is. *)
Definition aimed_at (entity_ids : option (list string))
    (devices : list Entity) : list Entity :=
  match entity_ids with
  | Some (id :: ids) => filter (fun d => entity_id d ∈ id :: ids) devices
  | _ => devices
  end.

(** What a trace does, in order: the trace without its log lines. *)
Definition without_logs (t : list Effect) : list Effect :=
  List.filter (fun e => match e with Log _ _ _ => false | _ => true end) t.

Definition _apply_service (entity_ids : option (list string))
    (service_func : Act World unit) : Act Hass unit :=
  h ← get;
  for_each (_devices entity_ids (hass_devices h)) (fun i =>
    on_device i service_func;;
    on_device i (emit (schedule_update_ha_state true))).

Definition _sync_service (entity_ids : option (list string)) : Act Hass unit :=
  _apply_service entity_ids sync.

(** ** A sample installation *)

Module Estate.

(** Two hubs under one Home Assistant, with an empty configuration
    directory. *)
Definition house : Hass :=
  {| hass_devices :=
       [mkEntity "remote.den" (self Sample.den);
        mkEntity "remote.attic" (self Sample.attic)];
     hass_files := ∅;
     hass_io := [] |}.

End Estate.

(** * Properties *)

(** ** Python strings on samples *)

Example isdigit_samples :
  PyStr.isdigit "0042" = true
  /\ PyStr.isdigit "" = false
  /\ PyStr.isdigit "-1" = false
  /\ PyStr.isdigit "4 2" = false.
Proof. repeat split; reflexivity. Qed.

Example int_samples :
  PyStr.int "0042" = Some 42
  /\ PyStr.int "-1" = Some (-1)
  /\ PyStr.int "-" = None
  /\ PyStr.int "TV" = None.
Proof. repeat split; reflexivity. Qed.

Example strip_samples :
  PyStr.strip "  Watch TV  " = "Watch TV"
  /\ PyStr.strip "Amp" = "Amp"
  /\ PyStr.strip "   " = "".
Proof. repeat split; reflexivity. Qed.

(** Beyond ASCII: a superscript digit passes [isdigit], on its own or
    among decimal digits, and [int] refuses it; the no-break space and
    NEL are stripped like a blank or a TAB. *)
Example latin1_samples :
  PyStr.isdigit Sample.superscript_two = true
  /\ PyStr.isdecimal Sample.superscript_two = false
  /\ PyStr.int Sample.superscript_two = None
  /\ PyStr.isdigit ("1" +:+ Sample.superscript_two) = true
  /\ PyStr.int ("1" +:+ Sample.superscript_two) = None
  /\ PyStr.strip
       (String "160" (String "009" ("TV" +:+ String "133" EmptyString)))
     = "TV".
Proof. repeat split; reflexivity. Qed.

(** ** Running actions *)

Lemma triple_eta {A B C} (x : A * B * C) :
  (let '(a, b, c) := x in (a, b, c)) = x.
Proof. by destruct x as [[? ?] ?]. Qed.

Lemma run_bind {S A B} (m : Act S A) (f : A -> Act S B) (s : S) :
  run (m ≫= f) s =
  match run m s with
  | (Returned a, s1, t1) =>
      let '(o, s2, t2) := run (f a) s1 in (o, s2, t1 ++ t2)
  | (Raised e, s1, t1) => (Raised e, s1, t1)
  end.
Proof. reflexivity. Qed.

(** [int] takes every text of decimal digits, and ["-1"]. *)
Lemma int_of_digits s :
  PyStr.isdecimal s = true -> PyStr.int s = Some (PyStr.digits_value 0 s).
Proof.
  unfold PyStr.int. intros H. destruct s as [|c s]; [done|].
  rewrite H.
  destruct c as [[] [] [] [] [] [] [] []]; try reflexivity.
  cbn in H. done.
Qed.

Lemma isdecimal_isdigit s : PyStr.isdecimal s = true -> PyStr.isdigit s = true.
Proof.
  destruct s as [|c s]; [done|]. unfold PyStr.isdecimal, PyStr.isdigit.
  generalize (String c s). clear. intros s.
  induction s as [|c s IH]; [done|]. cbn.
  intros [Hc Hs]%andb_true_iff. by rewrite Hc, IH.
Qed.

(** [int] raises on a text that [isdigit] accepts and that is not made
    of decimal digits only: one with a superscript digit. *)
Lemma int_of_superscript s :
  PyStr.isdigit s = true -> PyStr.isdecimal s = false -> PyStr.int s = None.
Proof.
  unfold PyStr.int. intros Hd Hn. destruct s as [|c s]; [done|].
  rewrite Hn.
  destruct c as [[] [] [] [] [] [] [] []]; try reflexivity.
  cbn in Hd. done.
Qed.

(** On a text that [isdigit] accepts, [int] raises exactly when the text
    is not decimal. *)
Lemma int_of_isdigit s :
  PyStr.isdigit s = true ->
  PyStr.int s =
  if PyStr.isdecimal s then Some (PyStr.digits_value 0 s) else None.
Proof.
  intros Hd. destruct (PyStr.isdecimal s) eqn:Hdec.
  - by apply int_of_digits.
  - by apply int_of_superscript.
Qed.

Lemma run_result_warnings (l : list SendCommandResponse) (w : World) :
  run (for_each l result_warning) w =
  (match l with [] => Returned tt | _ :: _ => Raised AttributeError end,
   w, []).
Proof. by destruct l. Qed.

Lemma resolve_device_run device w :
  run (resolve_device device) w =
  let c := _client (self w) in
  let numeric :=
    Log DEBUG "%s: Device %s is numeric"
      [arg_of_opt (name (self w)); AStr device] in
  let by_name :=
    Log DEBUG "%s: Find device ID %s based on device name"
      [arg_of_opt (name (self w)); AStr device] in
  let found := FoundId <$> get_device_id c (PyStr.strip device) in
  if PyStr.isdigit device then
    match PyStr.int device with
    | None => (Raised ValueError, w, [numeric])
    | Some n =>
        if PyStr.truthy_opt (get_device_name c n)
        then (Returned (Some (RawId device)), w, [numeric])
        else (Returned found, w, [numeric; by_name])
    end
  else (Returned found, w, [by_name]).
Proof.
  unfold resolve_device. cbn.
  destruct (PyStr.isdigit device) eqn:Hd; cbn; [|done].
  destruct (PyStr.int device) as [n|]; cbn; [|done].
  destruct (PyStr.truthy_opt _); cbn; done.
Qed.

Lemma resolve_activity_run activity w :
  run (resolve_activity activity) w =
  let c := _client (self w) in
  let numeric :=
    Log DEBUG "%s: Activity is numeric" [arg_of_opt (name (self w))] in
  let by_name :=
    Log DEBUG "%s: Find activity ID based on name"
      [arg_of_opt (name (self w))] in
  let found := FoundId <$> get_activity_id c (PyStr.strip activity) in
  if PyStr.isdigit activity || bool_decide (activity = "-1") then
    match PyStr.int activity with
    | None => (Raised ValueError, w, [numeric])
    | Some n =>
        if PyStr.truthy_opt (get_activity_name c n)
        then (Returned (Some (RawId activity)), w, [numeric])
        else (Returned found, w, [numeric; by_name])
    end
  else (Returned found, w, [by_name]).
Proof.
  unfold resolve_activity. cbn.
  destruct (PyStr.isdigit activity || bool_decide (activity = "-1")) eqn:Hd;
    cbn; [|done].
  destruct (PyStr.int activity) as [n|]; cbn; [|done].
  destruct (PyStr.truthy_opt _); cbn; done.
Qed.

(** The run of [async_send_command] on a device that is given. *)
Lemma async_send_command_run command device N kw_delay w :
  run (async_send_command command (Some device) N kw_delay) w =
  let me := arg_of_opt (name (self w)) in
  let steps :=
    snd_cmnd_list device command N (default (_delay_secs (self w)) kw_delay) in
  match run (resolve_device device) w with
  | (Returned (Some _), _, t) =>
      (match send_commands (_client (self w)) steps with
       | [] => Returned tt
       | _ :: _ => Raised AttributeError
       end, w,
       Log DEBUG "%s: Send Command" [me] :: t
       ++ [Log DEBUG "%s: Sending commands" [me];
           client_send_commands steps])
  | (Returned None, _, t) =>
      (Returned tt, w,
       Log DEBUG "%s: Send Command" [me] :: t
       ++ [Log ERROR "%s: Device %s is invalid" [me; AStr device]])
  | (Raised e, _, t) => (Raised e, w, Log DEBUG "%s: Send Command" [me] :: t)
  end.
Proof.
  rewrite resolve_device_run.
  unfold async_send_command, resolve_device.
  cbn -[snd_cmnd_list for_each].
  destruct (PyStr.isdigit device) eqn:Hd; cbn -[snd_cmnd_list for_each];
    repeat case_match; simplify_eq; cbn -[snd_cmnd_list for_each] in *;
    rewrite ?run_result_warnings in *; simplify_eq; done.
Qed.

(** ** Command sequencer *)

Lemma flat_map_const {A B} (l : list B) (xs : list A) :
  flat_map (fun _ => l) xs = mjoin (replicate (length xs) l).
Proof. induction xs as [|x xs IH]; cbn; [done | by rewrite IH]. Qed.

(** The outer loop repeats the list of one pass [num_repeats] times. *)
Lemma snd_cmnd_list_repeats device command N D :
  snd_cmnd_list device command N D =
  mjoin (replicate (Z.to_nat N)
    (flat_map (fun single_command =>
       Send (mkSendCommandDevice device single_command 0)
       :: (if PrimFloat.ltb 0%float D then [Delay D] else []))
       command)).
Proof. unfold snd_cmnd_list. by rewrite flat_map_const, length_seqZ. Qed.

Lemma length_join_replicate {A} (n : nat) (l : list A) :
  length (mjoin (replicate n l)) = (n * length l)%nat.
Proof.
  induction n as [|n IH]; [done|].
  change (length (l ++ mjoin (replicate n l)) = (length l + n * length l)%nat).
  by rewrite length_app, IH.
Qed.

Lemma last_join_replicate {A} (n : nat) (l : list A) (x : A) :
  last l = Some x -> last (mjoin (replicate (S n) l)) = Some x.
Proof.
  intros Hl. induction n as [|n IH].
  - change (last (l ++ []) = Some x). by rewrite app_nil_r.
  - change (last (l ++ mjoin (replicate (S n) l)) = Some x).
    by rewrite last_app, IH.
Qed.

(** Whatever batch a call submits is the list built by its two loops. *)
Lemma send_command_submits command device N kw_delay w steps :
  client_send_commands steps
    ∈ trace_of (async_send_command command (Some device) N kw_delay) w ->
  steps =
    snd_cmnd_list device command N (default (_delay_secs (self w)) kw_delay).
Proof.
  unfold trace_of. rewrite async_send_command_run, resolve_device_run.
  cbn -[snd_cmnd_list].
  repeat case_match; simplify_eq; cbn -[snd_cmnd_list];
    rewrite ?elem_of_cons, ?elem_of_nil, ?list_elem_of_fmap;
    unfold result_warning; intros Hin; destruct_or?; destruct_and?;
    try destruct Hin as (? & ? & _); by simplify_eq.
Qed.

(** C1, as the code has it: for the command list [c1, c2], a repeat
    count N >= 1 and a delay D > 0, the batch that [async_send_command]
    submits is N times [send(c1), delay(D), send(c2), delay(D)]: every
    command, the last one of the last repeat too, is followed by its
    delay, and the batch has 4N steps. *)
Theorem send_command_batch_length
    (w : World) (device c1 c2 : string) (N : Z) (D : float)
    (steps : list CommandStep) :
  1 <= N ->
  PrimFloat.ltb 0%float D = true ->
  client_send_commands steps
    ∈ trace_of (async_send_command [c1; c2] (Some device) N (Some D)) w ->
  steps = mjoin (replicate (Z.to_nat N)
            [Send (mkSendCommandDevice device c1 0); Delay D;
             Send (mkSendCommandDevice device c2 0); Delay D])
  /\ Z.of_nat (length steps) = 4 * N
  /\ last steps = Some (Delay D).
Proof.
  intros HN HD Hin. apply send_command_submits in Hin. cbn in Hin.
  rewrite snd_cmnd_list_repeats in Hin. cbn in Hin. rewrite HD in Hin.
  subst steps. split; [done|]. split.
  - rewrite length_join_replicate. cbn. lia.
  - destruct (Z.to_nat N) as [|n] eqn:Hn; [lia|].
    by apply last_join_replicate.
Qed.

(** A call that reaches the client, for the theorem above. *)
Lemma send_command_batch_length_witness :
  let steps :=
    [Send (mkSendCommandDevice "12" "VolumeUp" 0); Delay 1;
     Send (mkSendCommandDevice "12" "Mute" 0); Delay 1;
     Send (mkSendCommandDevice "12" "VolumeUp" 0); Delay 1;
     Send (mkSendCommandDevice "12" "Mute" 0); Delay 1] in
  Z.of_nat (length steps) = 4 * 2 /\ last steps = Some (Delay 1).
Proof.
  intros steps.
  refine (proj2 (send_command_batch_length Sample.den "12" "VolumeUp" "Mute"
                   2 1%float steps _ _ _)).
  - lia.
  - reflexivity.
  - vm_compute. do 3 apply list_elem_of_further. apply list_elem_of_here.
Defined.

(** C1, the claim's count fails: with N = 2 and D = 1 the batch has 8
    steps, not 4 * 2 - 1 = 7, and it ends with a delay. *)
Lemma send_command_trailing_delay_kept :
  let steps := snd_cmnd_list "12" ["VolumeUp"; "Mute"] 2 1%float in
  trace_of (async_send_command ["VolumeUp"; "Mute"] (Some "12") 2
              (Some 1%float)) Sample.den
  = [Log DEBUG "%s: Send Command" [AStr "Den"];
     Log DEBUG "%s: Device %s is numeric" [AStr "Den"; AStr "12"];
     Log DEBUG "%s: Sending commands" [AStr "Den"];
     client_send_commands steps]
  /\ Z.of_nat (length steps) = 8
  /\ Z.of_nat (length steps) <> 4 * 2 - 1
  /\ last steps = Some (Delay 1).
Proof. vm_compute. repeat split; done. Qed.

(** ** Name resolver *)

(** The run of [async_turn_on] on an activity that is given and not
    empty. *)
Lemma async_turn_on_run activity w :
  PyStr.truthy activity = true ->
  run (async_turn_on (Some activity)) w =
  let me := arg_of_opt (name (self w)) in
  match run (resolve_activity activity) w with
  | (Returned (Some activity_id), _, t) =>
      (Returned tt,
       mkWorld (set_state (Some true) (self w)) (files w) (io_outcomes w),
       Log DEBUG "%s: Turn On" [me] :: t
       ++ [client_start_activity activity_id])
  | (Returned None, _, t) =>
      (Returned tt, w,
       Log DEBUG "%s: Turn On" [me] :: t
       ++ [Log ERROR "%s: Activity %s is invalid" [me; AStr activity]])
  | (Raised e, _, t) => (Raised e, w, Log DEBUG "%s: Turn On" [me] :: t)
  end.
Proof.
  intros Ht. rewrite resolve_activity_run.
  unfold async_turn_on, resolve_activity. cbn. rewrite Ht. cbn.
  destruct (PyStr.isdigit activity || bool_decide (activity = "-1")) eqn:Hd;
    cbn.
  - destruct (PyStr.int activity) as [n|]; cbn; [|done].
    destruct (PyStr.truthy_opt _); cbn; [done|].
    destruct (get_activity_id _ _); done.
  - destruct (get_activity_id _ _); done.
Qed.

(** Where [int] takes what [isdigit] accepts, resolution goes by ID and
    then by name. An activity identifier that is all digits or exactly
    "-1", and whose number the client maps to a name that is not empty,
    resolves to the identifier itself, unchanged; a device identifier
    does so when it is all digits. In every other case the identifier,
    stripped of the white space around it and otherwise as it is, is
    handed to the client's lookup by name and resolves to the ID found
    there. When that lookup finds nothing the method logs one error and
    returns: no call reaches the client, nothing is tried again and the
    manager is left as it was. *)
Lemma resolve_by_id_then_by_name (w : World) (raw : string) :
  PyStr.isdigit raw = PyStr.isdecimal raw ->
  let c := _client (self w) in
  let known_activity_id :=
    (PyStr.isdigit raw || bool_decide (raw = "-1"))
    && PyStr.truthy_opt (from_option (get_activity_name c) None (PyStr.int raw)) in
  let known_device_id :=
    PyStr.isdigit raw
    && PyStr.truthy_opt (from_option (get_device_name c) None (PyStr.int raw)) in
  let me := arg_of_opt (name (self w)) in
  outcome_of (resolve_activity raw) w =
    Returned (if known_activity_id then Some (RawId raw)
              else FoundId <$> get_activity_id c (PyStr.strip raw))
  /\ outcome_of (resolve_device raw) w =
    Returned (if known_device_id then Some (RawId raw)
              else FoundId <$> get_device_id c (PyStr.strip raw))
  /\ (PyStr.truthy raw = true ->
      outcome_of (resolve_activity raw) w = Returned None ->
      outcome_of (async_turn_on (Some raw)) w = Returned tt
      /\ state_of (async_turn_on (Some raw)) w = w
      /\ client_calls (trace_of (async_turn_on (Some raw)) w) = []
      /\ logged ERROR (trace_of (async_turn_on (Some raw)) w) =
           [Log ERROR "%s: Activity %s is invalid" [me; AStr raw]])
  /\ (outcome_of (resolve_device raw) w = Returned None ->
      forall command N kw_delay,
        let call := async_send_command command (Some raw) N kw_delay in
        outcome_of call w = Returned tt
        /\ state_of call w = w
        /\ client_calls (trace_of call w) = []
        /\ logged ERROR (trace_of call w) =
             [Log ERROR "%s: Device %s is invalid" [me; AStr raw]]).
Proof.
  intros Hdec. cbn zeta. unfold outcome_of, state_of, trace_of.
  assert (PyStr.isdigit raw || bool_decide (raw = "-1") = true ->
          is_Some (PyStr.int raw)) as Hint.
  { intros [H|H]%orb_true_iff.
    - rewrite int_of_digits by congruence. eauto.
    - apply bool_decide_eq_true in H as ->. by eexists. }
  split; [|split; [|split]].
  - rewrite resolve_activity_run. cbn zeta.
    destruct (_ || _) eqn:Hnum; [|done]. destruct (Hint eq_refl) as [n ->].
    cbn. by destruct (PyStr.truthy_opt _).
  - rewrite resolve_device_run. cbn zeta.
    destruct (PyStr.isdigit raw) eqn:Hd; [|done].
    rewrite int_of_digits by congruence. cbn. by destruct (PyStr.truthy_opt _).
  - intros Ht Hnone. rewrite async_turn_on_run by done. revert Hnone.
    rewrite resolve_activity_run. cbn zeta.
    repeat case_match; cbn; intros; by simplify_eq.
  - intros Hnone command N kw_delay.
    rewrite async_send_command_run. revert Hnone.
    rewrite resolve_device_run. cbn zeta.
    repeat case_match; cbn; intros; by simplify_eq.
Qed.

(** C2, on the code: the superscript two is a digit for [str.isdigit]
    and no number for [int]. Given as an activity or as a device it
    takes the numeric branch on every hub, and the [ValueError] of [int]
    leaves the method before any lookup: the name table is not
    consulted, no error is logged and no call reaches the client. So it
    is on the lab hub, where the lookup by name would have found the
    activity 5 and the device 6. *)
Theorem superscript_identifier_raises
    (w : World) (command : list string) (N : Z) (kw_delay : option float) :
  let two := Sample.superscript_two in
  let me := arg_of_opt (name (self w)) in
  PyStr.isdigit two = true
  /\ PyStr.int two = None
  /\ run (async_turn_on (Some two)) w =
     (Raised ValueError, w,
      [Log DEBUG "%s: Turn On" [me];
       Log DEBUG "%s: Activity is numeric" [me]])
  /\ run (async_send_command command (Some two) N kw_delay) w =
     (Raised ValueError, w,
      [Log DEBUG "%s: Send Command" [me];
       Log DEBUG "%s: Device %s is numeric" [me; AStr two]])
  /\ get_activity_id (_client (self Sample.lab)) (PyStr.strip two) = Some 5
  /\ get_device_id (_client (self Sample.lab)) (PyStr.strip two) = Some 6.
Proof.
  cbn zeta. split; [done|]. split; [done|]. split; [|split; [|done]].
  - rewrite async_turn_on_run by done. by rewrite resolve_activity_run.
  - rewrite async_send_command_run. by rewrite resolve_device_run.
Qed.

(** The lab hub has an activity and a device called by a superscript
    two: the name resolves when a blank goes with it, and raises on its
    own. *)
Example superscript_name_on_the_lab_hub :
  outcome_of (resolve_activity (" " +:+ Sample.superscript_two)) Sample.lab
    = Returned (Some (FoundId 5))
  /\ outcome_of (resolve_activity Sample.superscript_two) Sample.lab
    = Raised ValueError
  /\ outcome_of (async_turn_on (Some Sample.superscript_two)) Sample.lab
    = Raised ValueError
  /\ client_calls (trace_of (async_turn_on (Some Sample.superscript_two))
                     Sample.lab) = [].
Proof. repeat split; reflexivity. Qed.

(** The failure branches of the theorem above are taken: on the den hub
    nothing is called "Kitchen". *)
Example unknown_name_is_abandoned :
  run (async_turn_on (Some "Kitchen")) Sample.den =
  (Returned tt, Sample.den,
   [Log DEBUG "%s: Turn On" [AStr "Den"];
    Log DEBUG "%s: Find activity ID based on name" [AStr "Den"];
    Log ERROR "%s: Activity %s is invalid" [AStr "Den"; AStr "Kitchen"]]).
Proof. reflexivity. Qed.

(** A name resolves when it matches after stripping, and only in the
    very letters of the hub's label. *)
Example name_is_stripped_and_case_sensitive :
  outcome_of (resolve_activity "  Watch TV ") Sample.den
    = Returned (Some (FoundId 77))
  /\ outcome_of (resolve_activity "watch tv") Sample.den = Returned None
  /\ outcome_of (resolve_activity "77") Sample.den
    = Returned (Some (RawId "77"))
  /\ outcome_of (resolve_device "0012") Sample.den
    = Returned (Some (RawId "0012")).
Proof. repeat split; reflexivity. Qed.

(** Only an activity may be given as "-1": the attic hub knows a device
    with the ID -1, yet for a device the identifier "-1" is not taken as
    an ID. It is looked up as a name, no device has that name, and the
    command is dropped with an error. *)
Example device_minus_one_is_not_an_id :
  get_device_name (_client (self Sample.attic)) (-1) = Some "Bridge"
  /\ outcome_of (resolve_device "-1") Sample.attic = Returned None
  /\ trace_of (async_send_command ["Mute"] (Some "-1") 1 None) Sample.attic
     = [Log DEBUG "%s: Send Command" [AStr "Attic"];
        Log DEBUG "%s: Find device ID %s based on device name"
          [AStr "Attic"; AStr "-1"];
        Log ERROR "%s: Device %s is invalid" [AStr "Attic"; AStr "-1"]].
Proof. repeat split; reflexivity. Qed.

(** ** The power-off sentinel *)

(** C3, as the code has it: "-1" is resolved like any numeric
    identifier. When the client maps the ID -1 to a name that is not
    empty, [async_turn_on] takes "-1" as it is, without a look at the
    name table, the client receives [start_activity] with "-1", and
    [_state] becomes true. [async_turn_off] sends [power_off] and leaves
    the manager as it was. *)
Theorem turn_on_sentinel_starts_activity (w : World) :
  PyStr.truthy_opt (get_activity_name (_client (self w)) (-1)) = true ->
  run (async_turn_on (Some "-1")) w =
    (Returned tt,
     mkWorld (set_state (Some true) (self w)) (files w) (io_outcomes w),
     [Log DEBUG "%s: Turn On" [arg_of_opt (name (self w))];
      Log DEBUG "%s: Activity is numeric" [arg_of_opt (name (self w))];
      client_start_activity (RawId "-1")])
  /\ run async_turn_off w =
    (Returned tt, w,
     [Log DEBUG "%s: Turn Off" [arg_of_opt (name (self w))];
      client_power_off]).
Proof.
  intros Hname. split; [|reflexivity].
  rewrite async_turn_on_run by done. rewrite resolve_activity_run.
  change (PyStr.int "-1") with (Some (-1)).
  cbn. rewrite Hname. reflexivity.
Qed.

Lemma turn_on_sentinel_starts_activity_witness :
  client_calls (trace_of (async_turn_on (Some "-1")) Sample.den)
    = [client_start_activity (RawId "-1")]
  /\ client_calls (trace_of async_turn_off Sample.den) = [client_power_off].
Proof.
  destruct (turn_on_sentinel_starts_activity Sample.den) as [Hon Hoff].
  - reflexivity.
  - unfold trace_of. rewrite Hon, Hoff. split; reflexivity.
Defined.

(** C3, the claim fails twice. On the attic hub, whose snapshot is
    loaded and knows no activity -1, "-1" does not resolve: turning on
    logs an error and calls nothing, where turning off sends
    [power_off]. On the den hub "-1" resolves, and the client receives
    [start_activity], not [power_off]. *)
Lemma turn_on_sentinel_is_not_power_off :
  config_loaded (_client (self Sample.attic)) = true
  /\ run (async_turn_on (Some "-1")) Sample.attic =
     (Returned tt, Sample.attic,
      [Log DEBUG "%s: Turn On" [AStr "Attic"];
       Log DEBUG "%s: Activity is numeric" [AStr "Attic"];
       Log DEBUG "%s: Find activity ID based on name" [AStr "Attic"];
       Log ERROR "%s: Activity %s is invalid" [AStr "Attic"; AStr "-1"]])
  /\ client_calls (trace_of async_turn_off Sample.attic) = [client_power_off]
  /\ client_calls (trace_of (async_turn_on (Some "-1")) Sample.den)
     = [client_start_activity (RawId "-1")]
  /\ client_calls (trace_of async_turn_off Sample.den) = [client_power_off].
Proof. repeat split; reflexivity. Qed.

(** ** Results of a batch *)

Lemma filter_all {A} (p : A -> bool) (l : list A) :
  forallb p l = true -> List.filter p l = l.
Proof.
  induction l as [|x l IH]; [done|]. cbn.
  intros [Hx Hl]%andb_true_iff. rewrite Hx. by rewrite IH.
Qed.

(** The trace of a call for a device that resolves, whatever the client
    answers. *)
Lemma send_command_resolved_run
    (w : World) (command : list string) (device : string) (N : Z)
    (kw_delay : option float) (device_id : HubRef) :
  let steps :=
    snd_cmnd_list device command N (default (_delay_secs (self w)) kw_delay) in
  outcome_of (resolve_device device) w = Returned (Some device_id) ->
  exists t,
    run (async_send_command command (Some device) N kw_delay) w =
      (match send_commands (_client (self w)) steps with
       | [] => Returned tt
       | _ :: _ => Raised AttributeError
       end, w, t ++ [client_send_commands steps])
    /\ Forall (fun e => is_log DEBUG e = true) t.
Proof.
  cbn zeta. unfold outcome_of.
  rewrite async_send_command_run, resolve_device_run. cbn zeta.
  repeat case_match; simplify_eq; cbn -[snd_cmnd_list]; intros; simplify_eq;
    first
      [ eexists [_; _; _]; split; [reflexivity|];
        repeat (apply Forall_cons; split; [done|]); apply Forall_nil
      | eexists [_; _; _; _]; split; [reflexivity|];
        repeat (apply Forall_cons; split; [done|]); apply Forall_nil ].
  all: exact I.
Qed.

Lemma filter_debug_only (p : Effect -> bool) (t : list Effect) :
  (forall e, is_log DEBUG e = true -> p e = false) ->
  Forall (fun e => is_log DEBUG e = true) t ->
  List.filter p t = [].
Proof.
  intros Hp. induction 1 as [|e t He _ IH]; [done|].
  cbn. by rewrite (Hp e He).
Qed.

(** C7, on the code: when the client returns a result list that is not
    empty, the loop over it ends at its first element. The arguments of
    the warning are evaluated first, and [result.command.code] is read
    off the [SendCommandDevice] that the result echoes: the call raises
    [AttributeError] after the batch has gone to the client, and no
    failed step is logged. *)
Theorem failed_result_raises_attribute_error
    (w : World) (command : list string) (device : string) (N : Z)
    (kw_delay : option float) (device_id : HubRef)
    (result : SendCommandResponse) (others : list SendCommandResponse) :
  let call := async_send_command command (Some device) N kw_delay in
  let steps :=
    snd_cmnd_list device command N (default (_delay_secs (self w)) kw_delay) in
  outcome_of (resolve_device device) w = Returned (Some device_id) ->
  send_commands (_client (self w)) steps = result :: others ->
  outcome_of call w = Raised AttributeError
  /\ state_of call w = w
  /\ client_calls (trace_of call w) = [client_send_commands steps]
  /\ logged WARNING (trace_of call w) = []
  /\ logged ERROR (trace_of call w) = [].
Proof.
  intros call steps Hres Hresults.
  destruct (send_command_resolved_run w command device N kw_delay device_id
              Hres) as (t & Hrun & Hdebug).
  unfold call, outcome_of, state_of, trace_of. rewrite Hrun.
  fold steps. rewrite Hresults. cbn [fst snd].
  unfold client_calls, logged. rewrite !List.filter_app.
  rewrite !(filter_debug_only _ t) by (done || by intros [[]| | | | | | | | | | | |]).
  done.
Qed.

(** The attic hub rejects the one command sent: the result is there,
    with its code, and the call ends in the exception. *)
Lemma failed_result_raises_attribute_error_witness :
  send_commands Sample.attic_client (snd_cmnd_list "TV" ["Mute"] 1 0%float)
    = [mkSendCommandResponse (mkSendCommandDevice "TV" "Mute" 0) 1 "rejected"]
  /\ run (async_send_command ["Mute"] (Some "TV") 1 None) Sample.attic =
     (Raised AttributeError, Sample.attic,
      [Log DEBUG "%s: Send Command" [AStr "Attic"];
       Log DEBUG "%s: Find device ID %s based on device name"
         [AStr "Attic"; AStr "TV"];
       Log DEBUG "%s: Sending commands" [AStr "Attic"];
       client_send_commands (snd_cmnd_list "TV" ["Mute"] 1 0%float)])
  /\ logged WARNING
       (trace_of (async_send_command ["Mute"] (Some "TV") 1 None) Sample.attic)
     = [].
Proof.
  split; [reflexivity|]. split; [reflexivity|].
  refine (proj1 (proj2 (proj2 (proj2
    (failed_result_raises_attribute_error Sample.attic ["Mute"] "TV" 1 None
       (FoundId 12)
       (mkSendCommandResponse (mkSendCommandDevice "TV" "Mute" 0) 1 "rejected")
       [] _ _))))); reflexivity.
Defined.

(** ** Config persistence *)

(** One request to write the file, whatever its outcome, and the
    manager is left as it was. *)
Lemma write_config_file_run (w : World) :
  run write_config_file w =
  let path := _config_path (self w) in
  let text := json_config (_client (self w)) in
  let opened :=
    [Log DEBUG "%s: Writing hub config to file: %s"
       [arg_of_opt (name (self w)); AStr path];
     file_open_w path] in
  let failed :=
    Log ERROR "%s: Unable to write HUB configuration to %s: %s"
      [arg_of_opt (name (self w)); AStr path; AIOError] in
  let after files' := mkWorld (self w) files' (tail (io_outcomes w)) in
  match next_outcome w with
  | WriteOk => (Returned tt, after (<[path := text]> (files w)), opened)
  | OpenFails => (Returned tt, after (files w), opened ++ [failed])
  | DumpFails written =>
      (Returned tt,
       after (<[path := String.substring 0 written text]> (files w)),
       opened ++ [failed])
  end.
Proof.
  unfold write_config_file, next_outcome. cbn.
  destruct w as [me fs [|[| |written] io]]; reflexivity.
Qed.

Lemma new_config_run (w : World) :
  run new_config w =
  let me := arg_of_opt (_name (self w)) in
  let activity_name := (current_activity (_client (self w))).2 in
  let w1 := mkWorld (refreshed (self w)) (files w) (io_outcomes w) in
  (Returned tt, (run write_config_file w1).1.2,
   [Log DEBUG "%s configuration has been updated" [me];
    Log DEBUG "%s activity reported as: %s" [me; arg_of_opt activity_name];
    schedule_update_ha_state false;
    schedule_update_ha_state false]
   ++ (run write_config_file w1).2).
Proof.
  cbn zeta. rewrite write_config_file_run.
  unfold new_config, refreshed, next_outcome. cbn.
  destruct (current_activity _) as [activity_id activity_name].
  destruct w as [me fs [|[| |written] io]]; reflexivity.
Qed.

Lemma refreshed_fields (me : HarmonyRemote) :
  _current_activity (refreshed me) = (current_activity (_client me)).2
  /\ available (refreshed me) = available me
  /\ _config_path (refreshed me) = _config_path me
  /\ _client (refreshed me) = _client me
  /\ name (refreshed me) = name me.
Proof. by destruct me. Qed.

(** C5: a configuration-changed callback returns normally and asks
    once for the configuration file to be written, with the client's
    configuration as its text. When the request succeeds the file holds
    that text and no error is logged. When it fails one error is logged,
    the file is not opened a second time, and the manager is the one a
    successful write leaves: its activity is the one the client
    reports, [is_on] follows from it and [available] is as before. *)
Theorem new_config_writes_once (w : World) :
  let path := _config_path (self w) in
  let text := json_config (_client (self w)) in
  let after := state_of new_config w in
  let t := trace_of new_config w in
  outcome_of new_config w = Returned tt
  /\ file_opens t = [path]
  /\ (next_outcome w = WriteOk ->
      files after !! path = Some text /\ logged ERROR t = [])
  /\ (next_outcome w <> WriteOk ->
      logged ERROR t =
        [Log ERROR "%s: Unable to write HUB configuration to %s: %s"
           [arg_of_opt (name (self w)); AStr path; AIOError]])
  /\ self after = refreshed (self w)
  /\ _current_activity (self after) = (current_activity (_client (self w))).2
  /\ is_on (self after) = is_on (refreshed (self w))
  /\ available (self after) = available (self w)
  /\ self (state_of write_config_file w) = self w.
Proof.
  cbn zeta. unfold outcome_of, state_of, trace_of.
  rewrite new_config_run. cbn zeta. rewrite !write_config_file_run.
  unfold next_outcome. destruct (refreshed_fields (self w)) as (Ha & Hv & Hp & Hc & Hn).
  destruct w as [me fs [|[| |written] io]]; cbn -[refreshed] in *;
    rewrite ?Hp, ?Hc, ?Hn, ?Ha, ?Hv;
    repeat split; try done; try (intros _; split); try done;
    by rewrite ?lookup_insert_eq.
Qed.

(** A write that fails at [open]: the error is logged, the file system
    is untouched, and the manager still learns the activity. *)
Example failed_write_is_absorbed :
  let w := mkWorld (self Sample.den) ∅ [OpenFails] in
  run new_config w =
  (Returned tt,
   mkWorld (refreshed (self Sample.den)) ∅ [],
   [Log DEBUG "%s configuration has been updated" [AStr "Den"];
    Log DEBUG "%s activity reported as: %s" [AStr "Den"; AStr "Watch TV"];
    schedule_update_ha_state false;
    schedule_update_ha_state false;
    Log DEBUG "%s: Writing hub config to file: %s"
      [AStr "Den"; AStr "/config/harmony_den.conf"];
    file_open_w "/config/harmony_den.conf";
    Log ERROR "%s: Unable to write HUB configuration to %s: %s"
      [AStr "Den"; AStr "/config/harmony_den.conf"; AIOError]])
  /\ is_on (refreshed (self Sample.den)) = true.
Proof. split; reflexivity. Qed.

(** ** Connection state *)

Lemma got_connected_run (w : World) :
  run got_connected w =
  let connected :=
    Log DEBUG "%s connected to the HUB." [arg_of_opt (_name (self w))] in
  if _available (self w)
  then (Returned tt, w, [connected; assign_available true])
  else (Returned tt,
        mkWorld (set_available true (self (state_of new_config w)))
          (files (state_of new_config w))
          (io_outcomes (state_of new_config w)),
        connected :: trace_of new_config w ++ [assign_available true]).
Proof.
  cbn zeta. unfold got_connected, state_of, trace_of.
  destruct (_available (self w)) eqn:Hav.
  - cbn. rewrite Hav. cbn. by destruct w as [[] ? ?]; cbn in *; subst.
  - cbn -[new_config]. rewrite Hav. cbn -[new_config].
    assert ((run new_config w).1.1 = Returned tt) as Hret
      by (by rewrite new_config_run).
    rewrite run_bind.
    destruct (run new_config w) as [[o w'] t]. cbn in Hret. subst o.
    done.
Qed.

(** C8: a "connected" callback returns normally and leaves the manager
    available. When it finds the manager unavailable, it first handles
    the event as a configuration change: after its own debug line its
    trace is the whole trace of [new_config], with the two state pushes
    and the one opening of the configuration file, and only then the
    assignment of true to [_available]; the manager ends with the
    activity that the client reports, and the files are those that
    [new_config] leaves. When it finds the manager available, it logs
    its line and assigns the flag: nothing is pushed, no file is opened
    and the world is as it was. *)
Theorem got_connected_refreshes_after_outage (w : World) :
  let connected :=
    Log DEBUG "%s connected to the HUB." [arg_of_opt (_name (self w))] in
  let activity_name := (current_activity (_client (self w))).2 in
  let after := state_of got_connected w in
  let t := trace_of got_connected w in
  outcome_of got_connected w = Returned tt
  /\ available (self after) = true
  /\ (available (self w) = true ->
      after = w /\ t = [connected; assign_available true])
  /\ (available (self w) = false ->
      t = connected :: trace_of new_config w ++ [assign_available true]
      /\ state_pushes (trace_of new_config w) = [false; false]
      /\ file_opens (trace_of new_config w) = [_config_path (self w)]
      /\ (deliver 0 ConfigUpdated w).1.1 = state_of new_config w
      /\ _current_activity (self after) = activity_name
      /\ _state (self after) = Some (not_power_off activity_name)
      /\ is_on (self after) = is_on (refreshed (self w))
      /\ files after = files (state_of new_config w)).
Proof.
  cbn zeta. unfold outcome_of, state_of, trace_of, available.
  rewrite got_connected_run. cbn zeta.
  destruct (_available (self w)) eqn:Hav.
  - cbn [fst snd]. repeat split; done.
  - cbn [fst snd self files]. unfold state_of, trace_of, deliver.
    rewrite new_config_run. cbn zeta. rewrite write_config_file_run.
    cbn zeta.
    destruct (refreshed_fields (self w)) as (Ha & Hv & Hp & Hc & Hn).
    destruct (next_outcome _); cbn -[refreshed];
      rewrite ?Hp; repeat split; try done; intros _;
      repeat split; try done; by destruct (self w).
Qed.

(** ** On and off *)

(** C9: in every state of the manager [is_on] holds exactly when the
    current activity is known and is not "PowerOff"; it fails exactly
    when the activity is [None] or "PowerOff". After [new_activity] the
    current activity is the reported name, so [is_on] speaks of it. *)
Theorem is_on_iff_activity_known_and_not_power_off (remote : HarmonyRemote) :
  (is_on remote = true <->
     exists activity_name,
       _current_activity remote = Some activity_name
       /\ activity_name <> "PowerOff")
  /\ (is_on remote = false <->
        _current_activity remote = None
        \/ _current_activity remote = Some "PowerOff")
  /\ (forall w activity_id activity_name,
        let after := self (state_of (new_activity (activity_id, activity_name)) w) in
        _current_activity after = activity_name
        /\ is_on after =
           match activity_name with
           | None => false
           | Some n => negb (String.eqb n "PowerOff")
           end).
Proof.
  unfold is_on. split; [|split].
  - rewrite negb_true_iff, bool_decide_eq_false.
    rewrite !elem_of_cons, elem_of_nil. split.
    + intros Hnot. destruct (_current_activity remote) as [n|]; [|tauto].
      exists n. split; [done|]. intros ->. tauto.
    + intros (n & -> & Hn) [|[|[]]]; by simplify_eq.
  - rewrite negb_false_iff, bool_decide_eq_true.
    rewrite !elem_of_cons, elem_of_nil. tauto.
  - intros w activity_id activity_name. cbn. split; [done|].
    destruct activity_name as [n|]; [|done].
    destruct (String.eqb_spec n "PowerOff") as [->|Hne]; [done|].
    cbn. rewrite bool_decide_eq_false_2; [done|].
    rewrite !elem_of_cons, elem_of_nil. intros [|[|[]]]; by simplify_eq.
Qed.

Example is_on_samples :
  is_on (self Sample.den) = false
  /\ is_on (set_current_activity (Some "Watch TV") (self Sample.den)) = true
  /\ is_on (set_current_activity (Some "PowerOff") (self Sample.den)) = false
  /\ is_on (set_current_activity (Some "poweroff") (self Sample.den)) = true.
Proof. repeat split; reflexivity. Qed.

(** C10: a manager fresh from its constructor reports [available] as
    true, whatever it was built from and before any callback of the
    client has run; no activity is known yet, so it is not on. *)
Theorem fresh_manager_is_available
    (client : HarmonyAPI) (name host : option string) (port : Z)
    (activity : option string) (out_path : string) (delay_secs : float) :
  let remote := __init__ client name host port activity out_path delay_secs in
  available remote = true
  /\ _current_activity remote = None
  /\ is_on remote = false
  /\ forall files io, event_loop [] [] (mkWorld remote files io) = [].
Proof. repeat split; reflexivity. Qed.

(** ** The grace period *)

(** Opens a world up to the activity pair of its client and to the
    outcome of its next I/O request, so that a run computes. *)
Ltac open_world w :=
  let me := fresh "me" in
  let client := fresh "client" in
  let activity := fresh "activity" in
  destruct w as [me ? [|[| |?] ?]];
  destruct me as [? ? ? ? ? ? client ? ? ?];
  destruct client as [? ? ? ? activity ? ? ?];
  destruct activity as [? ?].

(** One outage that outlasts the grace period is announced once, ten
    seconds after it began. *)
Lemma outage_is_announced_once (w : World) (t0 : Z) :
  unavailable_pushes (event_loop [(t0, Disconnected)] [] w) = [t0 + 10].
Proof. reflexivity. Qed.

(** One outage that ends within the grace period is never announced. *)
Lemma short_outage_is_not_announced (w : World) (t0 t1 : Z) :
  t0 < t1 <= t0 + 10 ->
  unavailable_pushes
    (event_loop [(t0, Disconnected); (t1, Connected)] [] w) = [].
Proof.
  intros Ht. open_world w;
    cbn -[Z.ltb]; rewrite (proj2 (Z.ltb_ge _ _)) by lia; reflexivity.
Qed.

(** C4, on the code: the hub drops out at 0, is back at 1 and drops out
    again at 5. The timer of the first outage fires at 10, finds the
    manager unavailable because of the second outage, and announces it,
    five seconds into that outage; the timer of the second outage
    announces it again at 15. The first outage ended within its grace
    period and still led to a push, and the observers are told twice. *)
Theorem stale_timer_announces_early (w : World) :
  unavailable_pushes
    (event_loop [(0, Disconnected); (1, Connected); (5, Disconnected)] [] w)
  = [10; 15].
Proof. open_world w; reflexivity. Qed.

(** ** Discovery merge *)

Section SetupProperties.
Variable DEFAULT_DELAY_SECS : float.
Variable slugify : option string -> Outcome string.
Variable hass_config_path : string -> string.
Variable harmony_client : option string -> Outcome HarmonyAPI.

Let setup :=
  async_setup_platform DEFAULT_DELAY_SECS slugify hass_config_path
    harmony_client.
Let load :=
  load_platform slugify hass_config_path harmony_client.

(** Loading a hub adds no manager, or one manager at the address it
    was given. *)
Lemma load_platform_devices p name address number activity delay_secs :
  exists added,
    DEVICES (state_of (load name address number activity delay_secs) p)
      = DEVICES p ++ added
    /\ (added = [] \/ known_addresses added = [(address, number)]).
Proof.
  unfold load, load_platform, state_of. cbn.
  destruct (slugify name) as [slug|e]; cbn.
  - destruct (harmony_client address) as [client|e]; cbn.
    + eexists [_]. split; [reflexivity|]. by right.
    + exists []. rewrite app_nil_r. split; [|by left]. by destruct e.
  - exists []. rewrite app_nil_r. split; [done|by left].
Qed.

(** The run of a discovery event. *)
Lemma discovery_run p config info :
  let number := discovered_port p info in
  (disc_host info, number) ∈ known_addresses (DEVICES p) ->
  run (setup config (Some info)) p =
    (Returned tt,
     mkPlatform (DEVICES p) (Some (default [] (device_cache p))),
     [Log DEBUG "Discovered host already known: %s"
        [AHost (disc_name info) (disc_host info) number]]).
Proof.
  intros number Hin. unfold setup, async_setup_platform.
  destruct p as [devices [cache|]]; cbn in *;
    fold number; rewrite bool_decide_eq_true_2 by done; reflexivity.
Qed.

(** C6: while no two managers share an address, a discovery event
    leaves it so. A discovered hub whose host and port are those of a
    manager in [DEVICES] is dropped: the setup logs a debug line and
    returns without an error, [DEVICES] is as before and no entity is
    added. *)
Theorem discovery_of_known_hub_is_dropped
    (p : Platform) (config : Config) (info : DiscoveryInfo) :
  let discovery := setup config (Some info) in
  NoDup (known_addresses (DEVICES p)) ->
  NoDup (known_addresses (DEVICES (state_of discovery p)))
  /\ ((disc_host info, discovered_port p info)
        ∈ known_addresses (DEVICES p) ->
      outcome_of discovery p = Returned tt
      /\ DEVICES (state_of discovery p) = DEVICES p
      /\ trace_of discovery p =
           [Log DEBUG "Discovered host already known: %s"
              [AHost (disc_name info) (disc_host info)
                 (discovered_port p info)]]).
Proof.
  intros discovery Hnodup. split.
  - destruct (decide ((disc_host info, discovered_port p info)
                        ∈ known_addresses (DEVICES p))) as [Hin|Hnew].
    + unfold state_of, discovery. by rewrite discovery_run.
    + assert (exists activity delay_secs,
                DEVICES (state_of discovery p) =
                DEVICES (state_of
                  (load (disc_name info) (disc_host info)
                     (discovered_port p info) activity delay_secs)
                  (mkPlatform (DEVICES p)
                     (Some (default [] (device_cache p))))))
        as (activity & delay_secs & ->).
      { unfold discovery, setup, async_setup_platform, state_of.
        destruct p as [devices [cache|]]; cbn -[load_platform] in *;
          unfold discovered_port in Hnew; cbn in Hnew;
          rewrite bool_decide_eq_false_2 by done;
          rewrite !triple_eta; eauto. }
      destruct (load_platform_devices
                  (mkPlatform (DEVICES p) (Some (default [] (device_cache p))))
                  (disc_name info) (disc_host info) (discovered_port p info)
                  activity delay_secs)
        as (added & -> & [->|Hadded]); cbn.
      * by rewrite app_nil_r.
      * unfold known_addresses in *. rewrite fmap_app, Hadded.
        apply NoDup_app. split; [done|]. split; [|apply NoDup_singleton].
        intros a Ha ->%list_elem_of_singleton. done.
  - intros Hin. unfold outcome_of, state_of, trace_of, discovery.
    by rewrite discovery_run.
Qed.
End SetupProperties.

Lemma discovery_of_known_hub_is_dropped_witness :
  let discovery :=
    async_setup_platform 0.5%float (fun name => Returned (default "" name))
      (fun file => "/config/" +:+ file) (fun _ => Returned Sample.den_client)
      (mkConfig None "Den" 1%float None 8088)
      (Some (mkDiscoveryInfo (Some "Den") (Some "10.0.0.7"))) in
  outcome_of discovery Sample.home = Returned tt
  /\ DEVICES (state_of discovery Sample.home) = DEVICES Sample.home.
Proof.
  intros discovery.
  destruct (discovery_of_known_hub_is_dropped 0.5%float
              (fun name => Returned (default "" name))
              (fun file => "/config/" +:+ file)
              (fun _ => Returned Sample.den_client)
              Sample.home (mkConfig None "Den" 1%float None 8088)
              (mkDiscoveryInfo (Some "Den") (Some "10.0.0.7")))
    as [_ Hdropped].
  - apply NoDup_singleton.
  - destruct Hdropped as (Hret & Hdevs & _).
    + vm_compute. apply list_elem_of_here.
    + split; assumption.
Defined.

(** A hub that is not known yet is set up, at the port of its cached
    configuration. *)
Example discovery_of_new_hub :
  let discovery :=
    async_setup_platform 0.5%float (fun name => Returned (default "" name))
      (fun file => "/config/" +:+ file) (fun _ => Returned Sample.attic_client)
      (mkConfig None "Attic" 1%float None 8088)
      (Some (mkDiscoveryInfo (Some "Attic") (Some "10.0.0.9"))) in
  known_addresses (DEVICES (state_of discovery Sample.home))
    = [(Some "10.0.0.7", 8088); (Some "10.0.0.9", 8088)]
  /\ outcome_of discovery Sample.home = Returned tt.
Proof. split; reflexivity. Qed.


(** * Further properties *)

(** ** The batch in general *)

Lemma sends_app (l k : list CommandStep) : sends (l ++ k) = sends l ++ sends k.
Proof. unfold sends. apply flat_map_app. Qed.

Lemma delays_app (l k : list CommandStep) :
  delays (l ++ k) = delays l ++ delays k.
Proof. unfold delays. apply flat_map_app. Qed.

Lemma join_replicate_map {A B} (f : list A -> list B) (n : nat) (l : list A) :
  f [] = [] ->
  (forall l k, f (l ++ k) = f l ++ f k) ->
  f (mjoin (replicate n l)) = mjoin (replicate n (f l)).
Proof.
  intros Hnil Happ. induction n as [|n IH]; [done|].
  change (f (l ++ mjoin (replicate n l)) = f l ++ mjoin (replicate n (f l))).
  by rewrite Happ, IH.
Qed.

Lemma one_pass_length device command D :
  length (one_pass device command D) =
  (length command * (if PrimFloat.ltb 0%float D then 2 else 1))%nat.
Proof.
  unfold one_pass. induction command as [|c command IH]; [done|].
  cbn [flat_map]. rewrite length_app, IH.
  destruct (PrimFloat.ltb 0%float D); cbn; lia.
Qed.

Lemma one_pass_sends device command D :
  sends (one_pass device command D) =
  (fun c => mkSendCommandDevice device c 0) <$> command.
Proof.
  unfold one_pass. induction command as [|c command IH]; [done|].
  cbn [flat_map]. rewrite sends_app, IH.
  by destruct (PrimFloat.ltb 0%float D).
Qed.

Lemma one_pass_delays device command D :
  delays (one_pass device command D) =
  if PrimFloat.ltb 0%float D then replicate (length command) D else [].
Proof.
  unfold one_pass. induction command as [|c command IH].
  - by destruct (PrimFloat.ltb 0%float D).
  - cbn [flat_map]. rewrite delays_app, IH.
    by destruct (PrimFloat.ltb 0%float D).
Qed.

Lemma snd_cmnd_list_passes device command N D :
  snd_cmnd_list device command N D =
  mjoin (replicate (Z.to_nat N) (one_pass device command D)).
Proof. apply snd_cmnd_list_repeats. Qed.

Lemma join_replicate_replicate {A} (n m : nat) (x : A) :
  mjoin (replicate n (replicate m x)) = replicate (n * m) x.
Proof.
  induction n as [|n IH]; [done|].
  change (replicate m x ++ mjoin (replicate n (replicate m x))
          = replicate (m + n * m) x).
  by rewrite IH, replicate_add.
Qed.

Lemma join_replicate_nil {A} (n : nat) : mjoin (replicate n (@nil A)) = [].
Proof. induction n as [|n IH]; [done|]. exact IH. Qed.

(** X1: for every device, command list, repeat count and delay, the
    batch has one step per command and repeat when the delay is not
    above zero (zero, negative, not a number), and two when it is; a
    repeat count of zero or below gives the empty batch. *)
Theorem batch_length_in_general
    (device : string) (command : list string) (N : Z) (D : float) :
  length (snd_cmnd_list device command N D) =
  (Z.to_nat N
   * (length command * (if PrimFloat.ltb 0%float D then 2 else 1)))%nat.
Proof.
  by rewrite snd_cmnd_list_passes, length_join_replicate, one_pass_length.
Qed.

(** X2: the commands of the batch are the command list, in its order,
    once per repeat, each for the device text as given and with the
    command's own delay field at 0; the pauses all last the configured
    delay, one per command sent, and there is none at all when the delay
    is not above zero. *)
Theorem batch_sends_and_delays
    (device : string) (command : list string) (N : Z) (D : float) :
  let steps := snd_cmnd_list device command N D in
  sends steps =
    mjoin (replicate (Z.to_nat N)
             ((fun c => mkSendCommandDevice device c 0) <$> command))
  /\ delays steps =
    (if PrimFloat.ltb 0%float D
     then replicate (Z.to_nat N * length command) D
     else []).
Proof.
  cbn zeta. rewrite snd_cmnd_list_passes. split.
  - rewrite (join_replicate_map sends) by (done || apply sends_app).
    by rewrite one_pass_sends.
  - rewrite (join_replicate_map delays) by (done || apply delays_app).
    rewrite one_pass_delays. destruct (PrimFloat.ltb 0%float D).
    + apply join_replicate_replicate.
    + apply join_replicate_nil.
Qed.

Example batch_without_delay :
  snd_cmnd_list "12" ["Up"; "Down"] 2 0%float
  = [Send (mkSendCommandDevice "12" "Up" 0);
     Send (mkSendCommandDevice "12" "Down" 0);
     Send (mkSendCommandDevice "12" "Up" 0);
     Send (mkSendCommandDevice "12" "Down" 0)]
  /\ snd_cmnd_list "12" ["Up"] 3 PrimFloat.nan
     = [Send (mkSendCommandDevice "12" "Up" 0);
        Send (mkSendCommandDevice "12" "Up" 0);
        Send (mkSendCommandDevice "12" "Up" 0)]
  /\ snd_cmnd_list "12" ["Up"] (-4) 1%float = [].
Proof. repeat split; reflexivity. Qed.

(** ** What [async_send_command] does in every case *)

Lemma send_command_calls_when_resolved
    (w : World) (command : list string) (device : string) (N : Z)
    (kw_delay : option float) (device_id : HubRef) :
  outcome_of (resolve_device device) w = Returned (Some device_id) ->
  client_calls
    (trace_of (async_send_command command (Some device) N kw_delay) w)
  = [client_send_commands
       (snd_cmnd_list device command N
          (default (_delay_secs (self w)) kw_delay))].
Proof.
  intros Hres.
  destruct (send_command_resolved_run w command device N kw_delay device_id
              Hres) as (t & Hrun & Hdebug).
  unfold trace_of. rewrite Hrun. cbn [fst snd].
  unfold client_calls. rewrite List.filter_app.
  by rewrite (filter_debug_only _ t)
    by (done || by intros [[]| | | | | | | | | | | |]).
Qed.


(** X4: the steps that reach the client name the device by the text the
    caller gave, also when that text resolved through the name table:
    neither the stripped text nor the ID that was found is sent. *)
Theorem send_command_sends_the_raw_device
    (w : World) (command : list string) (device : string) (N : Z)
    (kw_delay : option float) (steps : list CommandStep)
    (c : SendCommandDevice) :
  client_send_commands steps
    ∈ trace_of (async_send_command command (Some device) N kw_delay) w ->
  c ∈ sends steps ->
  scd_device c = device /\ scd_command c ∈ command /\ scd_delay c = 0.
Proof.
  intros Hin%send_command_submits Hc. subst steps.
  rewrite snd_cmnd_list_passes in Hc.
  rewrite (join_replicate_map sends) in Hc by (done || apply sends_app).
  rewrite one_pass_sends in Hc.
  induction (Z.to_nat N) as [|n IH]; [by apply elem_of_nil in Hc|].
  change (c ∈ ((fun c => mkSendCommandDevice device c 0) <$> command)
              ++ mjoin (replicate n
                   ((fun c => mkSendCommandDevice device c 0) <$> command)))
    in Hc.
  apply elem_of_app in Hc as [Hc|Hc]; [|by apply IH].
  apply list_elem_of_fmap in Hc as (single & -> & Hin). done.
Qed.

Lemma send_command_sends_the_raw_device_witness :
  let c := mkSendCommandDevice " TV " "Mute" 0 in
  outcome_of (resolve_device " TV ") Sample.den = Returned (Some (FoundId 12))
  /\ scd_device c = " TV ".
Proof.
  intros c. split; [reflexivity|].
  refine (proj1 (send_command_sends_the_raw_device Sample.den ["Mute"] " TV "
                   1 None [Send c; Delay 1] c _ _)).
  - vm_compute. do 3 apply list_elem_of_further. apply list_elem_of_here.
  - apply list_elem_of_here.
Defined.

(** X5: with a repeat count of zero or below, or with no command, a
    call for a device that resolves still goes to the client, with an
    empty batch. *)
Theorem send_command_submits_the_empty_batch
    (w : World) (command : list string) (device : string) (N : Z)
    (kw_delay : option float) (device_id : HubRef) :
  outcome_of (resolve_device device) w = Returned (Some device_id) ->
  N <= 0 \/ command = [] ->
  client_calls
    (trace_of (async_send_command command (Some device) N kw_delay) w)
  = [client_send_commands []].
Proof.
  intros Hres Hempty.
  rewrite (send_command_calls_when_resolved _ _ _ _ _ _ Hres).
  f_equal. f_equal.
  rewrite snd_cmnd_list_passes. destruct Hempty as [HN| ->].
  - by replace (Z.to_nat N) with 0%nat by lia.
  - apply join_replicate_nil.
Qed.

Lemma send_command_submits_the_empty_batch_witness :
  client_calls
    (trace_of (async_send_command ["Mute"] (Some "12") 0 None) Sample.den)
  = [client_send_commands []].
Proof.
  apply (send_command_submits_the_empty_batch Sample.den ["Mute"] "12" 0 None
           (RawId "12")).
  - reflexivity.
  - left. lia.
Defined.

(** ** What [async_turn_on] does in every case *)





Example turn_on_with_nothing_to_start :
  logged ERROR (trace_of (async_turn_on None) Sample.den)
  = [Log ERROR "%s: No activity specified with turn_on service" [AStr "Den"]]
  /\ logged ERROR (trace_of (async_turn_on (Some "")) Sample.den)
  = [Log ERROR "%s: No activity specified with turn_on service" [AStr "Den"]].
Proof. split; reflexivity. Qed.

(** ** Numbers that are not IDs *)

Lemma digit_is_no_space (c : ascii) :
  PyStr.is_ascii_digit c = true -> PyStr.is_space c = false.
Proof. by destruct c as [[] [] [] [] [] [] [] []]. Qed.

Lemma rstrip_digits (s : string) :
  PyStr.all_chars PyStr.is_ascii_digit s = true -> PyStr.rstrip s = s.
Proof.
  induction s as [|c s IH]; [done|]. cbn.
  intros [Hc Hs]%andb_true_iff. rewrite IH by done.
  rewrite (digit_is_no_space c Hc). by destruct s.
Qed.

Lemma strip_digits (s : string) :
  PyStr.isdecimal s = true -> PyStr.strip s = s.
Proof.
  destruct s as [|c s]; [done|]. cbn -[PyStr.rstrip].
  intros Hall. pose proof Hall as [Hc _]%andb_true_iff.
  unfold PyStr.strip. cbn -[PyStr.rstrip].
  rewrite (digit_is_no_space c Hc). by apply rstrip_digits.
Qed.

(** X7: an identifier made of the digits 0 to 9 that the client does
    not know as an ID is not rejected: the very same digits are looked
    up as a name, for an activity and for a device alike, and resolve to
    whatever ID carries that name. *)
Theorem unknown_number_is_tried_as_a_name (w : World) (raw : string) :
  PyStr.isdecimal raw = true ->
  let c := _client (self w) in
  (PyStr.truthy_opt (get_activity_name c (PyStr.digits_value 0 raw)) = false ->
   outcome_of (resolve_activity raw) w
   = Returned (FoundId <$> get_activity_id c raw))
  /\ (PyStr.truthy_opt (get_device_name c (PyStr.digits_value 0 raw)) = false ->
      outcome_of (resolve_device raw) w
      = Returned (FoundId <$> get_device_id c raw)).
Proof.
  intros Hd c. unfold outcome_of. split; intros Hunknown.
  - rewrite resolve_activity_run. cbn zeta.
    rewrite (isdecimal_isdigit _ Hd). cbn [orb].
    rewrite int_of_digits by done. fold c. rewrite Hunknown.
    by rewrite strip_digits.
  - rewrite resolve_device_run. cbn zeta.
    rewrite (isdecimal_isdigit _ Hd).
    rewrite int_of_digits by done. fold c. rewrite Hunknown.
    by rewrite strip_digits.
Qed.

Lemma unknown_number_is_tried_as_a_name_witness :
  outcome_of (resolve_activity "99") Sample.den = Returned None
  /\ outcome_of (resolve_device "99") Sample.den = Returned None.
Proof.
  destruct (unknown_number_is_tried_as_a_name Sample.den "99") as [Ha Hd];
    [reflexivity|].
  split; [apply Ha | apply Hd]; reflexivity.
Defined.

(** ** Activity and state *)

(** X8: [new_config] leaves the manager exactly as a single
    [new_activity] with the client's current activity does: its second,
    inline update changes nothing. It asks for the state to be written
    twice where [new_activity] asks once. *)
Theorem new_config_updates_like_new_activity (w : World) :
  let info := current_activity (_client (self w)) in
  self (state_of new_config w) = self (state_of (new_activity info) w)
  /\ state_pushes (trace_of new_config w) = [false; false]
  /\ state_pushes (trace_of (new_activity info) w) = [false]
  /\ client_calls (trace_of new_config w) = [].
Proof.
  cbn zeta. unfold state_of, trace_of.
  rewrite new_config_run. cbn zeta. rewrite write_config_file_run. cbn zeta.
  unfold refreshed. destruct (current_activity _) as [activity_id activity_name].
  destruct (next_outcome _); cbn; repeat split; by destruct (self w).
Qed.

(** X9: after [new_activity] the flag [_state] is false for "PowerOff"
    and true for everything else, the unknown activity [None] included.
    It agrees with [is_on] whenever a name is reported, and differs
    from it when none is: then [_state] is true and [is_on] is false. *)
Theorem state_flag_after_new_activity
    (w : World) (activity_id : option Z) (activity_name : option string) :
  let after := self (state_of (new_activity (activity_id, activity_name)) w) in
  _state after = Some (negb (bool_decide (activity_name = Some "PowerOff")))
  /\ (is_Some activity_name -> _state after = Some (is_on after))
  /\ (activity_name = None -> _state after = Some true /\ is_on after = false).
Proof.
  cbn. unfold not_power_off, is_on. cbn. split; [|split].
  - by destruct (decide (activity_name = Some "PowerOff"));
      [rewrite bool_decide_eq_false_2, bool_decide_eq_true_2
      |rewrite bool_decide_eq_true_2, bool_decide_eq_false_2]; auto.
  - intros [n ->]. f_equal.
    destruct (decide (n = "PowerOff")) as [->|Hne]; [done|].
    rewrite bool_decide_eq_true_2 by congruence.
    rewrite bool_decide_eq_false_2; [done|].
    rewrite !elem_of_cons, elem_of_nil. intros [|[|[]]]; by simplify_eq.
  - by intros ->.
Qed.

(** X10: [async_update] leaves the manager exactly as [new_activity]
    with the client's current activity does, but asks for no state
    write and opens no file; it fetches the configuration when the
    client has none and calls nothing otherwise. *)
Theorem async_update_is_a_silent_new_activity (w : World) :
  let info := current_activity (_client (self w)) in
  outcome_of async_update w = Returned tt
  /\ self (state_of async_update w) = self (state_of (new_activity info) w)
  /\ files (state_of async_update w) = files w
  /\ state_pushes (trace_of async_update w) = []
  /\ file_opens (trace_of async_update w) = []
  /\ client_calls (trace_of async_update w) =
     (if config_loaded (_client (self w)) then [] else [client_get_config]).
Proof.
  cbn zeta. unfold outcome_of, state_of, trace_of, async_update, new_activity.
  cbn. destruct (current_activity _) as [activity_id activity_name].
  destruct (config_loaded _); cbn; repeat split; done.
Qed.

(** ** Outage and reconnection *)

Lemma got_disconnected_run (w : World) :
  run got_disconnected w =
  (Returned (Sleep 10 still_disconnected),
   mkWorld (set_available false (self w)) (files w) (io_outcomes w),
   [Log DEBUG "%s disconnected from the HUB." [arg_of_opt (_name (self w))];
    assign_available false]).
Proof. reflexivity. Qed.

(** X11: a "disconnected" callback marks the manager unavailable at
    once and asks for no state write, no file and no client call before
    its sleep. The "connected" callback that follows always refreshes:
    the manager ends available with the activity the client reports,
    whatever it was before the outage, the state is pushed twice and the
    configuration file is requested once. *)
Theorem reconnection_after_outage_refreshes (w : World) :
  let down := state_of got_disconnected w in
  let up := state_of got_connected down in
  self down = set_available false (self w)
  /\ state_pushes (trace_of got_disconnected w) = []
  /\ client_calls (trace_of got_disconnected w) = []
  /\ file_opens (trace_of got_disconnected w) = []
  /\ outcome_of got_connected down = Returned tt
  /\ self up = set_available true (refreshed (self w))
  /\ available (self up) = true
  /\ _current_activity (self up) = (current_activity (_client (self w))).2
  /\ state_pushes (trace_of got_connected down) = [false; false]
  /\ file_opens (trace_of got_connected down) = [_config_path (self w)].
Proof.
  cbn zeta. unfold outcome_of, state_of, trace_of.
  rewrite got_disconnected_run. cbn [fst snd].
  rewrite got_connected_run. cbn zeta. cbn [self _available set_available].
  replace (_available (set_available false (self w))) with false
    by (by destruct (self w)).
  unfold state_of, trace_of. rewrite new_config_run. cbn zeta.
  rewrite write_config_file_run. cbn zeta.
  destruct (next_outcome _); cbn -[refreshed];
    repeat split; try done; by destruct (self w).
Qed.

(** X12: [got_connected] always leaves the manager available, and a
    second "connected" callback in a row changes nothing further: it
    logs its debug line and assigns the flag again, asks for no state
    write and opens no file. *)
Theorem connected_twice_refreshes_once (w : World) :
  let up := state_of got_connected w in
  outcome_of got_connected w = Returned tt
  /\ available (self up) = true
  /\ run got_connected up =
     (Returned tt, up,
      [Log DEBUG "%s connected to the HUB." [arg_of_opt (_name (self up))];
       assign_available true]).
Proof.
  cbn zeta.
  assert (outcome_of got_connected w = Returned tt
          /\ available (self (state_of got_connected w)) = true)
    as [Hret Hav].
  { unfold outcome_of, state_of. rewrite got_connected_run. cbn zeta.
    destruct (_available (self w)) eqn:Hw; cbn; [done|].
    split; [done|]. by destruct (self _). }
  split; [done|]. split; [done|].
  rewrite got_connected_run. cbn zeta. unfold available in Hav.
  by rewrite Hav.
Qed.

(** ** The configuration file *)

(** X13: [write_config_file] returns normally whatever the file system
    does, leaves the manager as it was, opens its own file once and
    touches no other file. When [open] fails every file is as before,
    the old configuration included; when the dump fails half way, the
    file is left with the part that was written. *)
Theorem write_touches_only_its_own_file (w : World) :
  let path := _config_path (self w) in
  let text := json_config (_client (self w)) in
  let after := state_of write_config_file w in
  outcome_of write_config_file w = Returned tt
  /\ self after = self w
  /\ io_outcomes after = tail (io_outcomes w)
  /\ file_opens (trace_of write_config_file w) = [path]
  /\ client_calls (trace_of write_config_file w) = []
  /\ (forall other, other <> path -> files after !! other = files w !! other)
  /\ (next_outcome w = OpenFails -> files after = files w)
  /\ (forall written,
        next_outcome w = DumpFails written ->
        files after !! path = Some (String.substring 0 written text)).
Proof.
  cbn zeta. unfold outcome_of, state_of, trace_of.
  rewrite write_config_file_run. cbn zeta.
  destruct (next_outcome w) eqn:Hio; cbn;
    repeat split; try done; intros; simplify_eq;
    by rewrite ?lookup_insert_eq, ?lookup_insert_ne.
Qed.

(** X14: writing the configuration a second time, with the client's
    configuration unchanged and the file system willing, leaves the
    files exactly as the first write left them. *)
Theorem rewriting_the_config_changes_nothing (w : World) :
  (forall io, io ∈ io_outcomes w -> io = WriteOk) ->
  files (state_of (write_config_file;; write_config_file) w)
  = files (state_of write_config_file w)
  /\ files (state_of write_config_file w) !! _config_path (self w)
     = Some (json_config (_client (self w))).
Proof.
  intros Hok. unfold state_of. rewrite run_bind.
  rewrite (write_config_file_run w). cbn zeta.
  assert (next_outcome w = WriteOk) as ->.
  { unfold next_outcome. destruct (io_outcomes w) as [|io rest]; [done|].
    apply Hok, list_elem_of_here. }
  rewrite write_config_file_run. cbn zeta.
  assert (next_outcome
            (mkWorld (self w)
               (<[_config_path (self w):=json_config (_client (self w))]>
                  (files w))
               (tail (io_outcomes w))) = WriteOk) as ->.
  { unfold next_outcome. cbn. destruct (io_outcomes w) as [|io [|io' rest]];
      try done. apply Hok. apply list_elem_of_further, list_elem_of_here. }
  cbn. split; [apply insert_insert_eq | apply lookup_insert_eq].
Qed.

Lemma rewriting_the_config_changes_nothing_witness :
  files (state_of (write_config_file;; write_config_file) Sample.den)
  = files (state_of write_config_file Sample.den).
Proof.
  refine (proj1 (rewriting_the_config_changes_nothing Sample.den _)).
  intros io Hio. by apply elem_of_nil in Hio.
Defined.

(** X15: when the manager is added to Home Assistant it connects the
    client once and pushes the client's current activity once. It
    writes the configuration file only if there is none at its path:
    an existing file is neither opened nor changed. *)
Theorem startup_writes_only_a_missing_file (w : World) :
  let path := _config_path (self w) in
  let info := current_activity (_client (self w)) in
  let after := state_of async_added_to_hass w in
  let t := trace_of async_added_to_hass w in
  outcome_of async_added_to_hass w = Returned tt
  /\ client_calls t = [client_connect]
  /\ state_pushes t = [false]
  /\ self after = self (state_of (new_activity info) w)
  /\ (is_Some (files w !! path) -> file_opens t = [] /\ files after = files w)
  /\ (files w !! path = None -> file_opens t = [path]).
Proof.
  cbn zeta. unfold outcome_of, state_of, trace_of, async_added_to_hass.
  cbn -[write_config_file].
  destruct (current_activity _) as [activity_id activity_name] eqn:Hinfo.
  destruct (decide (is_Some (files w !! _config_path (self w)))) as [Hsome|Hnone].
  - rewrite bool_decide_eq_true_2 by done. cbn.
    repeat split; try done. intros Hno. rewrite Hno in Hsome. by destruct Hsome.
  - rewrite bool_decide_eq_false_2 by done.
    rewrite !triple_eta, run_bind, write_config_file_run. cbn zeta.
    destruct (next_outcome w); cbn; rewrite ?Hinfo;
      repeat split; try done; intros; try done.
    all: by destruct Hnone.
Qed.

(** ** Setting up hubs *)

Section SetupFurther.
Variable DEFAULT_DELAY_SECS : float.
Variable slugify : option string -> Outcome string.
Variable hass_config_path : string -> string.
Variable harmony_client : option string -> Outcome HarmonyAPI.

Let setup :=
  async_setup_platform DEFAULT_DELAY_SECS slugify hass_config_path
    harmony_client.
Let load :=
  load_platform slugify hass_config_path harmony_client.

Lemma load_platform_run p name address number activity delay_secs :
  run (load name address number activity delay_secs) p =
  let loading :=
    Log INFO "Loading Harmony Platform: %s at %s:%s, startup activity: %s"
      [arg_of_opt name; arg_of_opt address; AInt number; arg_of_opt activity] in
  let started :=
    Log DEBUG "HarmonyRemote device init started for: %s" [arg_of_opt name] in
  let completed :=
    Log DEBUG "HarmonyRemote device init completed for: %s"
      [arg_of_opt name] in
  match slugify name with
  | Raised e => (Raised e, p, [loading])
  | Returned slug =>
      match harmony_client address with
      | Returned client =>
          (Returned tt,
           mkPlatform
             (DEVICES p
              ++ [__init__ client name address number activity
                    (hass_config_path ("harmony_" +:+ slug +:+ ".conf"))
                    delay_secs])
             (device_cache p),
           [loading; started; completed; async_add_entities [name];
            services_async_register SERVICE_SYNC])
      | Raised ValueError | Raised AttributeError =>
          (Raised PlatformNotReady, p, [loading; started])
      | Raised PlatformNotReady =>
          (Raised PlatformNotReady, p, [loading; started])
      end
  end.
Proof.
  unfold load, load_platform. cbn.
  destruct (slugify name) as [slug|e]; cbn; [|done].
  destruct (harmony_client address) as [client|[]]; cbn; by destruct p.
Qed.

(** The three ways through [async_setup_platform] that do not end at
    the known-hub check. *)
Lemma setup_discovery_new p config info :
  (disc_host info, discovered_port p info) ∉ known_addresses (DEVICES p) ->
  run (setup config (Some info)) p =
  let override := find_override (default [] (device_cache p)) (disc_name info) in
  run (load (disc_name info) (disc_host info) (discovered_port p info)
         (override ≫= conf_activity)
         (match override with
          | Some o => conf_delay_secs o
          | None => DEFAULT_DELAY_SECS
          end))
    (with_cache p).
Proof.
  intros Hnew. unfold setup, async_setup_platform, with_cache.
  destruct p as [devices [cache|]]; cbn -[load_platform] in *;
    unfold discovered_port in Hnew; cbn in Hnew;
    rewrite bool_decide_eq_false_2 by done;
    by rewrite !triple_eta.
Qed.

Lemma setup_static p config address :
  conf_host config = Some address ->
  run (setup config None) p =
  run (load (Some (conf_name config)) (Some address) (conf_port config)
         (conf_activity config) (conf_delay_secs config))
    (with_cache p).
Proof.
  intros Hhost. unfold setup, async_setup_platform, with_cache.
  destruct p as [devices [cache|]]; cbn -[load_platform] in *;
    rewrite Hhost; by rewrite !triple_eta.
Qed.

Lemma setup_hostless p config :
  conf_host config = None ->
  run (setup config None) p =
  (Returned tt,
   mkPlatform (DEVICES p) (Some (default [] (device_cache p) ++ [config])),
   []).
Proof.
  intros Hhost. unfold setup, async_setup_platform.
  destruct p as [devices [cache|]]; cbn; by rewrite Hhost.
Qed.

Lemma find_override_cons c cache name :
  find_override (c :: cache) name =
  if decide (Some (conf_name c) = name) then Some c
  else find_override cache name.
Proof.
  unfold find_override. cbn. destruct (decide _); [done|].
  by destruct (list_find _ cache) as [[i c']|].
Qed.

Lemma find_override_first earlier first later name :
  (forall c, c ∈ earlier -> conf_name c <> name) ->
  conf_name first = name ->
  find_override (earlier ++ first :: later) (Some name) = Some first.
Proof.
  intros Hearlier Hfirst.
  induction earlier as [|c earlier IH]; cbn [app]; rewrite find_override_cons.
  - rewrite decide_True; [done|]. by rewrite Hfirst.
  - rewrite decide_False.
    + apply IH. intros c' Hc'. apply Hearlier. by apply list_elem_of_further.
    + intros [= Heq]. by apply (Hearlier c); [apply list_elem_of_here|].
Qed.

Lemma find_override_none cache name :
  (forall c, c ∈ cache -> Some (conf_name c) <> name) ->
  find_override cache name = None.
Proof.
  induction cache as [|c cache IH]; intros Hnone; [done|].
  rewrite find_override_cons, decide_False.
  - apply IH. intros c' Hc'. apply Hnone. by apply list_elem_of_further.
  - apply Hnone, list_elem_of_here.
Qed.

(** X16: whatever it is called with and whatever Home Assistant and the
    client library answer, a setup call removes nothing: [DEVICES] and
    the cache of host-less configurations keep what they held, in order,
    and each grows by at most one entry, never both. One entity is
    handed to Home Assistant, and the sync service is registered once
    more, exactly when a manager was added. *)
Theorem setup_only_adds
    (p : Platform) (config : Config) (discovery_info : option DiscoveryInfo) :
  let call := setup config discovery_info in
  let after := state_of call p in
  exists added cached,
    DEVICES after = DEVICES p ++ added
    /\ device_cache after = Some (default [] (device_cache p) ++ cached)
    /\ (length added + length cached <= 1)%nat
    /\ added_entities (trace_of call p) = _name <$> added
    /\ registered_services (trace_of call p)
       = replicate (length added) SERVICE_SYNC.
Proof.
  cbn zeta. unfold state_of, trace_of.
  assert (forall name address number activity delay_secs,
            let r := run (load name address number activity delay_secs)
                       (with_cache p) in
            exists added,
              DEVICES r.1.2 = DEVICES p ++ added
              /\ device_cache r.1.2 = Some (default [] (device_cache p) ++ [])
              /\ (length added + 0 <= 1)%nat
              /\ added_entities r.2 = _name <$> added
              /\ registered_services r.2 = replicate (length added) SERVICE_SYNC)
    as Hload.
  { intros. subst r. rewrite load_platform_run. cbn zeta.
    rewrite app_nil_r.
    destruct (slugify name0) as [slug|e];
      [|exists []; rewrite app_nil_r; cbn; repeat split; (done || lia)].
    destruct (harmony_client address) as [client|[]];
      try (exists []; rewrite app_nil_r; cbn; repeat split; (done || lia)).
    eexists [_]. cbn. repeat split; (done || lia). }
  destruct discovery_info as [info|].
  - destruct (decide ((disc_host info, discovered_port p info)
                        ∈ known_addresses (DEVICES p))) as [Hin|Hnew].
    + unfold setup. rewrite discovery_run by done. cbn.
      exists [], []. rewrite !app_nil_r. repeat split; (done || cbn; lia).
    + rewrite setup_discovery_new by done. cbn zeta.
      destruct (Hload (disc_name info) (disc_host info)
                  (discovered_port p info)
                  (find_override (default [] (device_cache p)) (disc_name info)
                   ≫= conf_activity)
                  (match find_override (default [] (device_cache p))
                           (disc_name info) with
                   | Some o => conf_delay_secs o
                   | None => DEFAULT_DELAY_SECS
                   end)) as (added & H).
      by exists added, [].
  - destruct (conf_host config) as [address|] eqn:Hhost.
    + rewrite (setup_static _ _ address) by done.
      destruct (Hload (Some (conf_name config)) (Some address)
                  (conf_port config) (conf_activity config)
                  (conf_delay_secs config)) as (added & H).
      by exists added, [].
    + rewrite setup_hostless by done. cbn.
      exists [], [config]. rewrite app_nil_r. repeat split; (done || cbn; lia).
Qed.

(** X17: a configuration without a host is only remembered: no manager
    is built and nothing is logged. When a hub of that name is then
    discovered, and Home Assistant and the client library play along,
    the manager that is added carries the port, the start activity and
    the delay of the first remembered configuration that bears the
    name, provided no manager has the hub's address with that port: the
    configuration just remembered when none bore the name before it, an
    older one otherwise. The configuration passed along with the
    discovery is not looked at. *)
Theorem cached_config_overrides_discovery
    (p : Platform) (config ignored first : Config)
    (earlier later : list Config) (address : option string)
    (slug : string) (client : HarmonyAPI) :
  conf_host config = None ->
  default [] (device_cache p) ++ [config] = earlier ++ first :: later ->
  conf_name first = conf_name config ->
  (forall c, c ∈ earlier -> conf_name c <> conf_name config) ->
  (address, conf_port first) ∉ known_addresses (DEVICES p) ->
  slugify (Some (conf_name config)) = Returned slug ->
  harmony_client address = Returned client ->
  let remembered := state_of (setup config None) p in
  let discovery :=
    setup ignored (Some (mkDiscoveryInfo (Some (conf_name config)) address)) in
  run (setup config None) p =
    (Returned tt,
     mkPlatform (DEVICES p) (Some (default [] (device_cache p) ++ [config])),
     [])
  /\ outcome_of discovery remembered = Returned tt
  /\ DEVICES (state_of discovery remembered) =
     DEVICES p
     ++ [__init__ client (Some (conf_name config)) address (conf_port first)
           (conf_activity first)
           (hass_config_path ("harmony_" +:+ slug +:+ ".conf"))
           (conf_delay_secs first)]
  /\ ((forall c, c ∈ default [] (device_cache p) ->
                 conf_name c <> conf_name config) ->
      first = config).
Proof.
  intros Hhost Hsplit Hname Hearlier Hnew Hslug Hclient remembered discovery.
  assert (run (setup config None) p =
          (Returned tt,
           mkPlatform (DEVICES p)
             (Some (default [] (device_cache p) ++ [config])), []))
    as Hfirst by (by apply setup_hostless).
  assert (find_override (default [] (device_cache p) ++ [config])
            (Some (conf_name config)) = Some first) as Hfind
    by (rewrite Hsplit; by apply find_override_first).
  split; [done|].
  subst remembered discovery. unfold outcome_of, state_of.
  rewrite Hfirst. cbn [fst snd].
  rewrite setup_discovery_new.
  - cbn zeta. cbn [device_cache default disc_name disc_host DEVICES].
    unfold discovered_port. cbn [device_cache default disc_name].
    change (id (default [] (device_cache p) ++ [config]))
      with (default [] (device_cache p) ++ [config]).
    rewrite Hfind.
    rewrite load_platform_run. cbn zeta. rewrite Hslug, Hclient.
    split; [done|]. split; [done|].
    intros Hfresh.
    assert (first ∈ default [] (device_cache p) ++ [config]) as Hin
      by (rewrite Hsplit; apply elem_of_app; right; apply list_elem_of_here).
    apply elem_of_app in Hin as [Hin|Hin].
    + by destruct (Hfresh first Hin).
    + by apply list_elem_of_singleton in Hin.
  - unfold discovered_port. cbn [device_cache default disc_name disc_host DEVICES].
    change (id (default [] (device_cache p) ++ [config]))
      with (default [] (device_cache p) ++ [config]).
    by rewrite Hfind.
Qed.

(** X18: a hub discovered under a name that no remembered configuration
    bears, at an address no manager has, is set up on the default port
    8088 with the default delay and without a start activity. *)
Theorem discovery_without_cached_config_uses_defaults
    (p : Platform) (config : Config) (info : DiscoveryInfo)
    (slug : string) (client : HarmonyAPI) :
  (forall c, c ∈ default [] (device_cache p) ->
             Some (conf_name c) <> disc_name info) ->
  (disc_host info, DEFAULT_PORT) ∉ known_addresses (DEVICES p) ->
  slugify (disc_name info) = Returned slug ->
  harmony_client (disc_host info) = Returned client ->
  let discovery := setup config (Some info) in
  outcome_of discovery p = Returned tt
  /\ DEVICES (state_of discovery p) =
     DEVICES p
     ++ [__init__ client (disc_name info) (disc_host info) 8088 None
           (hass_config_path ("harmony_" +:+ slug +:+ ".conf"))
           DEFAULT_DELAY_SECS].
Proof.
  intros Hnone Hnew Hslug Hclient discovery.
  subst discovery. unfold outcome_of, state_of.
  assert (discovered_port p info = DEFAULT_PORT) as Hport
    by (unfold discovered_port; by rewrite find_override_none).
  rewrite setup_discovery_new by (by rewrite Hport).
  cbn zeta. rewrite Hport, find_override_none by done.
  rewrite load_platform_run. cbn zeta. by rewrite Hslug, Hclient.
Qed.

(** X19: a configuration that names its host is set up without a look
    at the managers there are: if one of them has that host and port
    already, two managers share the address afterwards. *)
Theorem static_setup_can_duplicate_an_address
    (p : Platform) (config : Config) (address slug : string)
    (client : HarmonyAPI) :
  conf_host config = Some address ->
  (Some address, conf_port config) ∈ known_addresses (DEVICES p) ->
  slugify (Some (conf_name config)) = Returned slug ->
  harmony_client (Some address) = Returned client ->
  let after := state_of (setup config None) p in
  outcome_of (setup config None) p = Returned tt
  /\ known_addresses (DEVICES after)
     = known_addresses (DEVICES p) ++ [(Some address, conf_port config)]
  /\ ~ NoDup (known_addresses (DEVICES after)).
Proof.
  intros Hhost Hknown Hslug Hclient. cbn zeta. unfold outcome_of, state_of.
  rewrite (setup_static _ _ address) by done.
  rewrite load_platform_run. cbn zeta. rewrite Hslug, Hclient. cbn.
  unfold known_addresses in *. rewrite fmap_app. cbn.
  repeat split; try done.
  intros (_ & Hdisjoint & _)%NoDup_app.
  apply (Hdisjoint _ Hknown), list_elem_of_here.
Qed.

(** X20: when the client library refuses to build the client with a
    [ValueError] or an [AttributeError], the setup of a configured host
    raises [PlatformNotReady]: no manager is added, no entity is handed
    over and no service is registered. *)
Theorem failed_construction_is_not_ready
    (p : Platform) (config : Config) (address slug : string) (e : Exn) :
  conf_host config = Some address ->
  slugify (Some (conf_name config)) = Returned slug ->
  harmony_client (Some address) = Raised e ->
  e = ValueError \/ e = AttributeError ->
  let call := setup config None in
  outcome_of call p = Raised PlatformNotReady
  /\ DEVICES (state_of call p) = DEVICES p
  /\ added_entities (trace_of call p) = []
  /\ registered_services (trace_of call p) = [].
Proof.
  intros Hhost Hslug Hclient He. cbn zeta.
  unfold outcome_of, state_of, trace_of.
  rewrite (setup_static _ _ address) by done.
  rewrite load_platform_run. cbn zeta. rewrite Hslug, Hclient.
  by destruct He as [-> | ->].
Qed.
End SetupFurther.

(** On an installation that remembers an "Attic" on port 9000, a second
    host-less "Attic" on port 8089 changes nothing for the hub that is
    discovered: it is set up on port 9000, without a start activity. *)
Lemma cached_config_overrides_discovery_witness :
  let setup :=
    async_setup_platform 0.5%float (fun name => Returned (default "" name))
      (fun file => "/config/" +:+ file) (fun _ => Returned Sample.attic_client) in
  let older := mkConfig None "Attic" 1%float None 9000 in
  let attic := mkConfig (Some "Watch TV") "Attic" 2%float None 8089 in
  let den := mkConfig (Some "Watch TV") "Den" 1%float None 8088 in
  let p := mkPlatform (DEVICES Sample.home) (Some [den; older]) in
  (fun h => (host h, port h, _default_activity h))
    <$> DEVICES
          (state_of
             (setup attic
                (Some (mkDiscoveryInfo (Some "Attic") (Some "10.0.0.9"))))
             (state_of (setup attic None) p))
  = [(Some "10.0.0.7", 8088, None); (Some "10.0.0.9", 9000, None)].
Proof.
  intros setup older attic den p.
  destruct (cached_config_overrides_discovery 0.5%float
              (fun name => Returned (default "" name))
              (fun file => "/config/" +:+ file)
              (fun _ => Returned Sample.attic_client)
              p attic attic older [den] [attic] (Some "10.0.0.9") "Attic"
              Sample.attic_client) as (_ & _ & Hdevices & _).
  - reflexivity.
  - reflexivity.
  - reflexivity.
  - intros c Hc. apply list_elem_of_singleton in Hc. by subst c.
  - intros Hin. apply list_elem_of_singleton in Hin. discriminate.
  - reflexivity.
  - reflexivity.
  - etransitivity;
      [exact (f_equal (fmap (fun h => (host h, port h, _default_activity h)))
                Hdevices)
      |reflexivity].
Defined.

(** With no "Attic" remembered before, the configuration just
    remembered is the one that counts. *)
Example fresh_cached_config_is_used :
  let setup :=
    async_setup_platform 0.5%float (fun name => Returned (default "" name))
      (fun file => "/config/" +:+ file) (fun _ => Returned Sample.attic_client) in
  let attic := mkConfig (Some "Watch TV") "Attic" 2%float None 8089 in
  (fun h => (host h, port h, _default_activity h))
    <$> DEVICES
          (state_of
             (setup attic
                (Some (mkDiscoveryInfo (Some "Attic") (Some "10.0.0.9"))))
             (state_of (setup attic None) Sample.home))
  = [(Some "10.0.0.7", 8088, None); (Some "10.0.0.9", 8089, Some "Watch TV")].
Proof. reflexivity. Qed.

Lemma discovery_without_cached_config_uses_defaults_witness :
  let discovery :=
    async_setup_platform 0.5%float (fun name => Returned (default "" name))
      (fun file => "/config/" +:+ file) (fun _ => Returned Sample.attic_client)
      (mkConfig None "Attic" 1%float None 8088)
      (Some (mkDiscoveryInfo (Some "Attic") (Some "10.0.0.9"))) in
  outcome_of discovery Sample.home = Returned tt.
Proof.
  intros discovery.
  refine (proj1 (discovery_without_cached_config_uses_defaults 0.5%float
                   (fun name => Returned (default "" name))
                   (fun file => "/config/" +:+ file)
                   (fun _ => Returned Sample.attic_client)
                   Sample.home (mkConfig None "Attic" 1%float None 8088)
                   (mkDiscoveryInfo (Some "Attic") (Some "10.0.0.9"))
                   "Attic" Sample.attic_client _ _ _ _)).
  - intros c Hc. apply list_elem_of_singleton in Hc. by subst c.
  - intros Hin. apply list_elem_of_singleton in Hin. discriminate.
  - reflexivity.
  - reflexivity.
Defined.

Lemma static_setup_can_duplicate_an_address_witness :
  let again := mkConfig None "Den again" 1%float (Some "10.0.0.7") 8088 in
  known_addresses
    (DEVICES
       (state_of
          (async_setup_platform 0.5%float
             (fun name => Returned (default "" name))
             (fun file => "/config/" +:+ file)
             (fun _ => Returned Sample.den_client) again None)
          Sample.home))
  = [(Some "10.0.0.7", 8088); (Some "10.0.0.7", 8088)].
Proof.
  intros again.
  refine (proj1 (proj2 (static_setup_can_duplicate_an_address 0.5%float
                          (fun name => Returned (default "" name))
                          (fun file => "/config/" +:+ file)
                          (fun _ => Returned Sample.den_client)
                          Sample.home again "10.0.0.7" "Den again"
                          Sample.den_client _ _ _ _))).
  - reflexivity.
  - apply list_elem_of_here.
  - reflexivity.
  - reflexivity.
Defined.

Lemma failed_construction_is_not_ready_witness :
  outcome_of
    (async_setup_platform 0.5%float (fun name => Returned (default "" name))
       (fun file => "/config/" +:+ file) (fun _ => Raised ValueError)
       (mkConfig None "Loft" 1%float (Some "10.0.0.11") 8088) None)
    Sample.home
  = Raised PlatformNotReady.
Proof.
  refine (proj1 (failed_construction_is_not_ready 0.5%float
                   (fun name => Returned (default "" name))
                   (fun file => "/config/" +:+ file)
                   (fun _ => Raised ValueError)
                   Sample.home
                   (mkConfig None "Loft" 1%float (Some "10.0.0.11") 8088)
                   "10.0.0.11" "Loft" ValueError _ _ _ _)).
  - reflexivity.
  - reflexivity.
  - reflexivity.
  - by left.
Defined.

(** ** Grace timers in general *)

Lemma still_disconnected_run (w : World) :
  run still_disconnected w =
  (Returned tt, w,
   if _available (self w) then [] else [schedule_update_ha_state false]).
Proof. unfold still_disconnected. cbn. by destruct (_available (self w)). Qed.

(** Firing grace timers changes nothing in the world; each timer that is
    due writes the state once if the manager is unavailable, and not at
    all if it is available. *)
Lemma fire_grace_timers (due : Z -> bool)
    (timers : list (Z * Act World unit)) (w : World) :
  Forall (fun tm => tm.2 = still_disconnected) timers ->
  fire due timers w =
  (w,
   List.filter (fun tm => negb (due tm.1)) timers,
   if _available (self w) then []
   else (fun tm => mkStateWrite tm.1 false (is_on (self w)))
          <$> List.filter (fun tm => due tm.1) timers).
Proof.
  induction 1 as [|[at_ rest] timers Hrest _ IH]; cbn.
  - by destruct (_available (self w)).
  - cbn in Hrest. subst rest. rewrite still_disconnected_run, IH.
    destruct (due at_); cbn; [|done].
    destruct (_available (self w)) eqn:Hav; cbn; [done|].
    unfold available. by rewrite Hav.
Qed.

Lemma state_writes_available now w t :
  forall sw, sw ∈ state_writes now w t -> sw_available sw = available (self w).
Proof.
  unfold state_writes. induction t as [|e t IH]; intros sw Hsw.
  - by apply elem_of_nil in Hsw.
  - cbn in Hsw. apply elem_of_app in Hsw as [Hsw|Hsw]; [|by apply IH].
    destruct e; try (by apply elem_of_nil in Hsw).
    apply list_elem_of_singleton in Hsw. by subst sw.
Qed.

Lemma unavailable_pushes_app l k :
  unavailable_pushes (l ++ k) = unavailable_pushes l ++ unavailable_pushes k.
Proof. unfold unavailable_pushes. by rewrite filter_app, fmap_app. Qed.

Lemma unavailable_pushes_none l :
  (forall sw, sw ∈ l -> sw_available sw = true) -> unavailable_pushes l = [].
Proof.
  unfold unavailable_pushes. induction l as [|sw l IH]; intros Hall; [done|].
  rewrite filter_cons_False.
  - apply IH. intros sw' Hsw'. apply Hall. by apply list_elem_of_further.
  - rewrite (Hall sw) by apply list_elem_of_here. done.
Qed.

Lemma unavailable_pushes_length l :
  (length (unavailable_pushes l) <= length l)%nat.
Proof.
  unfold unavailable_pushes. rewrite length_fmap. apply length_filter.
Qed.

Lemma deliver_connected now w :
  exists w' writes,
    deliver now Connected w = (w', [], writes)
    /\ _available (self w') = true
    /\ unavailable_pushes writes = [].
Proof.
  unfold deliver.
  destruct (run got_connected w) as [[o w'] t] eqn:Hrun.
  exists w', (state_writes now w' t). split; [done|].
  assert (_available (self w') = true) as Hav.
  { rewrite got_connected_run in Hrun. cbn zeta in Hrun.
    destruct (_available (self w)) eqn:Hw; simplify_eq; [done|].
    cbn. by destruct (self _). }
  split; [done|]. apply unavailable_pushes_none.
  intros sw Hsw. by rewrite (state_writes_available _ _ _ _ Hsw).
Qed.

Lemma deliver_disconnected now w :
  deliver now Disconnected w =
  (mkWorld (set_available false (self w)) (files w) (io_outcomes w),
   [(now + 10, still_disconnected)], []).
Proof. reflexivity. Qed.

(** A callback other than "disconnected" leaves an available manager
    available, starts no timer and writes no unavailable state. *)
Lemma deliver_keeps_available now cb w :
  is_disconnected cb = false ->
  _available (self w) = true ->
  exists w' writes,
    deliver now cb w = (w', [], writes)
    /\ _available (self w') = true
    /\ unavailable_pushes writes = [].
Proof.
  intros Hcb Hav.
  assert (forall w' t,
            _available (self w') = true ->
            unavailable_pushes (state_writes now w' t) = []) as Hquiet.
  { intros w' t Hw'. apply unavailable_pushes_none.
    intros sw Hsw. by rewrite (state_writes_available _ _ _ _ Hsw). }
  destruct cb as [| |info|]; try discriminate Hcb.
  - destruct (deliver_connected now w) as (w' & writes & ? & ? & ?).
    by exists w', writes.
  - unfold deliver.
    destruct (run (new_activity info) w) as [[o w'] t] eqn:Hrun.
    assert (_available (self w') = true) as Hw'.
    { unfold new_activity in Hrun. destruct info as [activity_id activity_name].
      cbn in Hrun. simplify_eq. cbn. by destruct (self w). }
    exists w', (state_writes now w' t). repeat split; [done|]. by apply Hquiet.
  - unfold deliver.
    destruct (run new_config w) as [[o w'] t] eqn:Hrun.
    assert (_available (self w') = true) as Hw'.
    { rewrite new_config_run in Hrun. cbn zeta in Hrun.
      rewrite write_config_file_run in Hrun. cbn zeta in Hrun.
      destruct (refreshed_fields (self w)) as (_ & Ha & _).
      unfold available in Ha.
      destruct (next_outcome _); cbn -[refreshed] in Hrun; simplify_eq;
        cbn -[refreshed]; congruence. }
    exists w', (state_writes now w' t). repeat split; [done|]. by apply Hquiet.
Qed.

(** While the manager is available and no "disconnected" callback
    arrives, grace timers come and go unheard. *)
Lemma grace_timers_are_quiet_while_available
    (events : list (Z * Callback)) (timers : list (Z * Act World unit))
    (w : World) :
  _available (self w) = true ->
  Forall (fun ev => is_disconnected ev.2 = false) events ->
  Forall (fun tm => tm.2 = still_disconnected) timers ->
  unavailable_pushes (event_loop events timers w) = [].
Proof.
  intros Hav Hevents. revert timers w Hav.
  induction Hevents as [|[now cb] events Hcb _ IH]; intros timers w Hav Hgrace;
    cbn [event_loop]; rewrite fire_grace_timers by done.
  - cbn [snd]. by rewrite Hav.
  - destruct (deliver_keeps_available now cb w Hcb Hav)
      as (w' & writes & -> & Hav' & Hnone).
    rewrite Hav, app_nil_r. rewrite !unavailable_pushes_app, Hnone.
    cbn [app]. apply IH; [done|].
    rewrite Forall_forall in *. intros tm Htm. apply Hgrace.
    apply list_elem_of_In. apply list_elem_of_In in Htm.
    by apply List.filter_In in Htm as [Htm _].
Qed.

(** X21: a "connected" callback that arrives no later than any pending
    grace timer is due silences them all, as long as no "disconnected"
    callback follows it: however many outages are still waiting for
    their ten seconds, and whatever "connected", activity and
    configuration callbacks come after, none of them is announced. *)
Theorem reconnection_silences_pending_timers
    (now : Z) (later : list (Z * Callback))
    (timers : list (Z * Act World unit)) (w : World) :
  Forall (fun tm => tm.2 = still_disconnected) timers ->
  Forall (fun tm => now <= tm.1) timers ->
  Forall (fun ev => is_disconnected ev.2 = false) later ->
  unavailable_pushes (event_loop ((now, Connected) :: later) timers w) = [].
Proof.
  intros Hgrace Hlater Hquiet. cbn [event_loop].
  rewrite fire_grace_timers by done.
  assert (List.filter (fun tm : Z * Act World unit => negb (tm.1 <? now)) timers
          = timers) as ->.
  { apply filter_all. apply forallb_forall. intros tm Htm.
    apply list_elem_of_In in Htm.
    rewrite Forall_forall in Hlater. specialize (Hlater tm Htm).
    apply negb_true_iff, Z.ltb_ge. lia. }
  assert (List.filter (fun tm : Z * Act World unit => tm.1 <? now) timers = [])
    as ->.
  { induction Hlater as [|tm timers Htm _ IH]; [done|]. cbn.
    rewrite (proj2 (Z.ltb_ge _ _)) by lia. inversion Hgrace. by apply IH. }
  destruct (deliver_connected now w) as (w' & writes & -> & Hav & Hnone).
  rewrite app_nil_r, !unavailable_pushes_app, Hnone.
  rewrite grace_timers_are_quiet_while_available by done.
  by destruct (_available (self w)).
Qed.

Lemma reconnection_silences_pending_timers_witness :
  unavailable_pushes
    (event_loop
       [(7, Connected); (12, ActivityChanged (Some 77, Some "Watch TV"));
        (30, ConfigUpdated)]
       [(10, still_disconnected); (15, still_disconnected)]
       (state_of got_disconnected Sample.den)) = [].
Proof.
  apply reconnection_silences_pending_timers.
  - repeat constructor.
  - repeat constructor; cbn; lia.
  - repeat constructor.
Defined.

(** A "disconnected" callback after the reconnection gives the pending
    timer its voice back: the timer of the first outage speaks at 10,
    two seconds into the second one. *)
Example later_outage_revives_pending_timer :
  unavailable_pushes
    (event_loop [(7, Connected); (8, Disconnected)]
       [(10, still_disconnected)]
       (state_of got_disconnected Sample.den)) = [10; 18].
Proof. reflexivity. Qed.

Lemma filter_split_length {A} (p : A -> bool) (l : list A) :
  (length (List.filter p l) + length (List.filter (fun x => negb (p x)) l)
   = length l)%nat.
Proof.
  induction l as [|x l IH]; [done|]. cbn. destruct (p x); cbn; lia.
Qed.

Lemma fire_grace_bound (due : Z -> bool)
    (timers : list (Z * Act World unit)) (w : World) :
  Forall (fun tm => tm.2 = still_disconnected) timers ->
  let '(w', pending, writes) := fire due timers w in
  w' = w
  /\ Forall (fun tm => tm.2 = still_disconnected) pending
  /\ (length (unavailable_pushes writes) + length pending <= length timers)%nat.
Proof.
  intros Hgrace. rewrite fire_grace_timers by done.
  split; [done|]. split.
  - rewrite Forall_forall in *. intros tm Htm.
    apply Hgrace. apply list_elem_of_In. apply list_elem_of_In in Htm.
    by apply List.filter_In in Htm as [Htm _].
  - pose proof (filter_split_length (fun tm : Z * Act World unit => due tm.1)
                  timers) as Hsplit.
    etransitivity; [|by rewrite <- Hsplit].
    apply Nat.add_le_mono_r.
    etransitivity; [apply unavailable_pushes_length|].
    destruct (_available (self w)); cbn; [lia|]. by rewrite length_fmap.
Qed.

(** X22: over any sequence of "connected" and "disconnected" callbacks,
    the observers are told that the hub is unavailable at most once per
    "disconnected" callback, counting the outages whose timers were
    already pending at the start. *)
Theorem announcements_are_bounded_by_outages
    (events : list (Z * Callback)) (timers : list (Z * Act World unit))
    (w : World) :
  Forall (fun ev => is_connection_event ev.2 = true) events ->
  Forall (fun tm => tm.2 = still_disconnected) timers ->
  (length (unavailable_pushes (event_loop events timers w))
   <= length timers
      + length (List.filter (fun ev => is_disconnected ev.2) events))%nat.
Proof.
  intros Hevents. revert timers w.
  induction Hevents as [|[now cb] events Hcb _ IH]; intros timers w Hgrace.
  - cbn [event_loop]. pose proof (fire_grace_bound (fun _ => true) timers w Hgrace)
      as Hfire.
    destruct (fire (fun _ => true) timers w) as [[w' pending] writes].
    destruct Hfire as (_ & _ & Hbound). cbn -[unavailable_pushes]. lia.
  - cbn [event_loop].
    pose proof (fire_grace_bound (fun at_ => at_ <? now) timers w Hgrace)
      as Hfire.
    destruct (fire (fun at_ => at_ <? now) timers w) as [[w1 pending] writes1].
    destruct Hfire as (-> & Hpending & Hbound).
    destruct cb; try discriminate Hcb.
    + destruct (deliver_connected now w) as (w2 & writes2 & -> & _ & Hnone).
      rewrite !unavailable_pushes_app, Hnone, !length_app.
      cbn -[unavailable_pushes event_loop].
      specialize (IH (pending ++ []) w2).
      rewrite app_nil_r in IH. specialize (IH Hpending).
      rewrite app_nil_r. lia.
    + rewrite deliver_disconnected.
      rewrite !unavailable_pushes_app, !length_app.
      cbn -[unavailable_pushes event_loop].
      match goal with
      | |- context [event_loop events ?tms ?w2] =>
          specialize (IH tms w2)
      end.
      rewrite length_app in IH. cbn in IH.
      assert (Forall (fun tm : Z * Act World unit => tm.2 = still_disconnected)
                (pending ++ [(now + 10, still_disconnected)])) as Hall
        by (apply Forall_app; split; [done|by repeat constructor]).
      specialize (IH Hall).
      change (unavailable_pushes []) with (@nil Z). cbn [length]. lia.
Qed.

Lemma announcements_are_bounded_by_outages_witness :
  let flapping := [(0, Disconnected); (1, Connected); (5, Disconnected)] in
  (length (unavailable_pushes (event_loop flapping [] Sample.den)) <= 2)%nat.
Proof.
  intros flapping.
  apply (announcements_are_bounded_by_outages flapping [] Sample.den).
  - repeat constructor.
  - constructor.
Defined.

(** ** Services *)

Lemma run_for_each_cons {S A} (x : A) (l : list A) (body : A -> Act S unit)
    (s : S) :
  run (for_each (x :: l) body) s =
  match run (body x) s with
  | (Returned _, s1, t1) =>
      let '(o, s2, t2) := run (for_each l body) s1 in (o, s2, t1 ++ t2)
  | (Raised e, s1, t1) => (Raised e, s1, t1)
  end.
Proof. cbn [for_each]. rewrite run_bind. by destruct (run (body x) s) as [[[[]|] ?] ?]. Qed.

(** A property that every round of a loop keeps is kept by the loop,
    also when a round raises and ends it. *)
Lemma for_each_preserves {S A} (P : S -> Prop) (l : list A)
    (body : A -> Act S unit) :
  (forall x s, x ∈ l -> P s -> P (state_of (body x) s)) ->
  forall s, P s -> P (state_of (for_each l body) s).
Proof.
  unfold state_of. induction l as [|x l IH]; intros Hbody s Hs; [done|].
  rewrite run_for_each_cons.
  pose proof (Hbody x s (list_elem_of_here _ _) Hs) as Hx.
  destruct (run (body x) s) as [[[[]|e] s1] t1]; cbn in Hx; [|done].
  assert (P (run (for_each l body) s1).1.2) as Hl.
  { apply IH; [|done]. intros y s' Hy. apply Hbody.
    by apply list_elem_of_further. }
  by destruct (run (for_each l body) s1) as [[o s2] t2].
Qed.

Lemma selected_spec (ids : list string) (devices : list Entity) (k i : nat) :
  i ∈ selected ids devices k <->
  exists d, devices !! (i - k)%nat = Some d /\ entity_id d ∈ ids /\ (k <= i)%nat.
Proof.
  revert k. induction devices as [|d devices IH]; intros k; cbn.
  - rewrite elem_of_nil. split; [done|]. by intros (d & Hd & _).
  - assert (i ∈ selected ids devices (S k) <->
            exists d', (d :: devices) !! (i - k)%nat = Some d'
                       /\ entity_id d' ∈ ids /\ (S k <= i)%nat) as Hrest.
    { rewrite IH. split; intros (d' & Hd' & Hin & Hle); exists d';
        (split; [|done]).
      - by replace (i - k)%nat with (S (i - S k)) by lia.
      - by replace (i - k)%nat with (S (i - S k)) in Hd' by lia. }
    case_bool_decide as Hd.
    + rewrite elem_of_cons, Hrest. split.
      * intros [->|(d' & Hd' & Hin & Hle)].
        -- exists d. by rewrite Nat.sub_diag.
        -- exists d'. repeat split; try done. lia.
      * intros (d' & Hd' & Hin & Hle).
        destruct (decide (i = k)) as [->|Hne]; [by left|].
        right. exists d'. repeat split; try done. lia.
    + rewrite Hrest. split.
      * intros (d' & Hd' & Hin & Hle). exists d'. repeat split; try done. lia.
      * intros (d' & Hd' & Hin & Hle). exists d'. repeat split; try done.
        destruct (decide (i = k)) as [->|Hne]; [|lia].
        rewrite Nat.sub_diag in Hd'. cbn in Hd'. by simplify_eq.
Qed.

Lemma on_device_frame (i : nat) (method : Act World unit) (h : Hass) :
  let after := state_of (on_device i method) h in
  entity_id <$> hass_devices after = entity_id <$> hass_devices h
  /\ forall j, j <> i -> hass_devices after !! j = hass_devices h !! j.
Proof.
  cbn zeta. unfold state_of, on_device. cbn.
  destruct (hass_devices h !! i) as [d|] eqn:Hd; [|done].
  destruct (run method _) as [[o w] t]. cbn. split.
  - rewrite list_fmap_insert. cbn. apply list_insert_id.
    by rewrite list_lookup_fmap, Hd.
  - intros j Hj. by rewrite list_lookup_insert_ne.
Qed.

(** X23: whatever the service function does, a service call leaves the
    devices it was not aimed at exactly as they were, also when the
    function raises half way: with a list of entity IDs that is not
    empty, a device whose ID is not in the list is untouched. No device
    is added, removed or renamed. *)
Theorem service_leaves_other_devices_alone
    (entity_ids : list string) (service_func : Act World unit) (h : Hass) :
  entity_ids <> [] ->
  let after := state_of (_apply_service (Some entity_ids) service_func) h in
  entity_id <$> hass_devices after = entity_id <$> hass_devices h
  /\ forall i d,
       hass_devices h !! i = Some d ->
       entity_id d ∉ entity_ids ->
       hass_devices after !! i = Some d.
Proof.
  intros Hids. cbn zeta. unfold state_of, _apply_service.
  rewrite run_bind. cbn [run get]. rewrite triple_eta.
  destruct entity_ids as [|id ids]; [done|]. cbn [_devices].
  set (targets := selected (id :: ids) (hass_devices h) 0).
  set (P := fun s : Hass =>
    entity_id <$> hass_devices s = entity_id <$> hass_devices h
    /\ forall j, j ∉ targets -> hass_devices s !! j = hass_devices h !! j).
  assert (P (state_of
               (for_each targets (fun i =>
                  on_device i service_func;;
                  on_device i (emit (schedule_update_ha_state true)))) h))
    as [Hnames Hothers].
  { apply for_each_preserves; [|by split].
    intros i s Hi [Hn Ho]. unfold state_of. rewrite run_bind.
    pose proof (on_device_frame i service_func s) as [Hn1 Ho1].
    unfold state_of in Hn1, Ho1.
    destruct (run (on_device i service_func) s) as [[[[]|e] s1] t1];
      cbn in Hn1, Ho1.
    - pose proof (on_device_frame i (emit (schedule_update_ha_state true)) s1)
        as [Hn2 Ho2].
      unfold state_of in Hn2, Ho2.
      destruct (run (on_device i _) s1) as [[o s2] t2]. cbn in *.
      split; [congruence|]. intros j Hj.
      assert (j <> i) by (by intros ->).
      rewrite Ho2, Ho1 by done. by apply Ho.
    - cbn. split; [congruence|]. intros j Hj.
      assert (j <> i) by (by intros ->).
      rewrite Ho1 by done. by apply Ho. }
  unfold state_of in Hnames, Hothers. split; [done|].
  intros i d Hd Hout. rewrite Hothers; [done|].
  unfold targets. rewrite selected_spec, Nat.sub_0_r.
  intros (d' & Hd' & Hin & _). by simplify_eq.
Qed.

Lemma service_leaves_other_devices_alone_witness :
  hass_devices
    (state_of (_apply_service (Some ["remote.den"]) sync) Estate.house) !! 1%nat
  = Some (mkEntity "remote.attic" (self Sample.attic)).
Proof.
  refine (proj2 (service_leaves_other_devices_alone ["remote.den"] sync
                   Estate.house _) 1%nat _ _ _).
  - discriminate.
  - reflexivity.
  - cbn. intros Hin. apply list_elem_of_singleton in Hin. discriminate.
Defined.

Lemma sync_run (w : World) :
  run sync w =
  (Returned tt, state_of write_config_file w,
   Log DEBUG "%s: Syncing hub with Harmony servers" [arg_of_opt (name (self w))]
   :: client_sync :: trace_of write_config_file w).
Proof.
  unfold sync, state_of, trace_of. cbn -[write_config_file].
  rewrite write_config_file_run. cbn zeta.
  by destruct (next_outcome w).
Qed.

Lemma client_calls_app (l k : list Effect) :
  client_calls (l ++ k) = client_calls l ++ client_calls k.
Proof. apply List.filter_app. Qed.

Lemma state_pushes_app (l k : list Effect) :
  state_pushes (l ++ k) = state_pushes l ++ state_pushes k.
Proof. apply flat_map_app. Qed.

Lemma file_opens_app (l k : list Effect) :
  file_opens (l ++ k) = file_opens l ++ file_opens k.
Proof. apply flat_map_app. Qed.

Lemma without_logs_app (l k : list Effect) :
  without_logs (l ++ k) = without_logs l ++ without_logs k.
Proof. apply List.filter_app. Qed.

Lemma on_device_sync_run (h : Hass) (i : nat) (d : Entity) :
  hass_devices h !! i = Some d ->
  exists files' t,
    run (on_device i sync) h =
      (Returned tt, mkHass (hass_devices h) files' (tail (hass_io h)), t)
    /\ without_logs t = [client_sync; file_open_w (_config_path (entity d))]
    /\ client_calls t = [client_sync]
    /\ state_pushes t = []
    /\ file_opens t = [_config_path (entity d)].
Proof.
  intros Hd. unfold on_device. cbn [run]. rewrite Hd.
  rewrite sync_run. unfold state_of, trace_of.
  rewrite write_config_file_run. cbn zeta.
  cbn [self files io_outcomes fst snd].
  assert (<[i:=mkEntity (entity_id d) (entity d)]> (hass_devices h)
          = hass_devices h) as Hsame
    by (apply list_insert_id; by destruct d).
  destruct (next_outcome _); cbn [fst snd self files io_outcomes];
    rewrite Hsame; by eexists _, _.
Qed.

Lemma on_device_emit_run (h : Hass) (i : nat) (d : Entity) (e : Effect) :
  hass_devices h !! i = Some d ->
  run (on_device i (emit e)) h = (Returned tt, h, [e]).
Proof.
  intros Hd. unfold on_device. cbn. rewrite Hd. cbn.
  rewrite list_insert_id by (by destruct d). by destruct h.
Qed.

(** One round of the sync service on a device that is there. *)
Lemma sync_round (h : Hass) (i : nat) (d : Entity) :
  hass_devices h !! i = Some d ->
  let round :=
    on_device i sync;; on_device i (emit (schedule_update_ha_state true)) in
  outcome_of round h = Returned tt
  /\ hass_devices (state_of round h) = hass_devices h
  /\ without_logs (trace_of round h) =
       [client_sync; file_open_w (_config_path (entity d));
        schedule_update_ha_state true]
  /\ client_calls (trace_of round h) = [client_sync]
  /\ state_pushes (trace_of round h) = [true]
  /\ file_opens (trace_of round h) = [_config_path (entity d)].
Proof.
  intros Hd. cbn zeta. unfold outcome_of, state_of, trace_of.
  rewrite run_bind.
  destruct (on_device_sync_run h i d Hd)
    as (files' & t & -> & Hdone & Hcalls & Hpushes & Hopens).
  rewrite (on_device_emit_run _ i d) by done. cbn [fst snd].
  rewrite without_logs_app, client_calls_app, state_pushes_app, file_opens_app.
  rewrite Hdone, Hcalls, Hpushes, Hopens. done.
Qed.

Lemma sync_rounds (targets : list nat) (aimed : list Entity) (h : Hass) :
  Forall2 (fun i d => hass_devices h !! i = Some d) targets aimed ->
  let loop :=
    for_each targets (fun i =>
      on_device i sync;; on_device i (emit (schedule_update_ha_state true))) in
  outcome_of loop h = Returned tt
  /\ hass_devices (state_of loop h) = hass_devices h
  /\ without_logs (trace_of loop h) =
       flat_map (fun d => [client_sync; file_open_w (_config_path (entity d));
                           schedule_update_ha_state true]) aimed
  /\ client_calls (trace_of loop h) = replicate (length aimed) client_sync
  /\ state_pushes (trace_of loop h) = replicate (length aimed) true
  /\ file_opens (trace_of loop h) = (fun d => _config_path (entity d)) <$> aimed.
Proof.
  cbn zeta. unfold outcome_of, state_of, trace_of.
  revert aimed h. induction targets as [|i targets IH]; intros aimed h Hall.
  - by apply Forall2_nil_inv_l in Hall as ->.
  - apply Forall2_cons_inv_l in Hall as (d & ds & Hd & Hrest & ->).
    rewrite run_for_each_cons.
    pose proof (sync_round h i d Hd)
      as (Hret & Hdevs & Hdone & Hcalls & Hpush & Hopen).
    unfold outcome_of, state_of, trace_of in *.
    destruct (run (on_device i sync;; on_device i _) h) as [[o h1] t1].
    cbn [fst snd] in Hret, Hdevs, Hdone, Hcalls, Hpush, Hopen. subst o.
    specialize (IH ds h1).
    destruct IH as (IHret & IHdevs & IHdone & IHcalls & IHpush & IHopen).
    { by rewrite Hdevs. }
    destruct (run (for_each targets _) h1) as [[o h2] t2].
    cbn [fst snd length replicate flat_map fmap list_fmap] in *.
    rewrite without_logs_app, client_calls_app, state_pushes_app,
      file_opens_app.
    rewrite Hdone, Hcalls, Hpush, Hopen, IHdone, IHcalls, IHpush, IHopen.
    repeat split; try done. congruence.
Qed.

(** The positions chosen by [selected] are those of the devices that
    the comprehension keeps, in the same order. *)
Lemma selected_aimed (ids : list string) (before devices : list Entity) :
  Forall2 (fun i d => (before ++ devices) !! i = Some d)
    (selected ids devices (length before))
    (filter (fun d => entity_id d ∈ ids) devices).
Proof.
  revert before. induction devices as [|d devices IH]; intros before;
    [constructor|].
  specialize (IH (before ++ [d])).
  rewrite <- app_assoc, length_app, Nat.add_1_r in IH. cbn [app length] in IH.
  cbn [selected]. destruct (decide (entity_id d ∈ ids)) as [Hin|Hout].
  - rewrite bool_decide_eq_true_2, filter_cons_True by done.
    constructor; [|done]. by apply list_lookup_middle.
  - by rewrite bool_decide_eq_false_2, filter_cons_False by done.
Qed.

Lemma all_aimed (before devices : list Entity) :
  Forall2 (fun i d => (before ++ devices) !! i = Some d)
    (seq (length before) (length devices)) devices.
Proof.
  revert before. induction devices as [|d devices IH]; intros before;
    [constructor|].
  specialize (IH (before ++ [d])).
  rewrite <- app_assoc, length_app, Nat.add_1_r in IH. cbn [app length] in IH.
  cbn [length seq]. constructor; [|done]. by apply list_lookup_middle.
Qed.

Lemma devices_aimed (entity_ids : option (list string))
    (devices : list Entity) :
  Forall2 (fun i d => devices !! i = Some d)
    (_devices entity_ids devices) (aimed_at entity_ids devices).
Proof.
  destruct entity_ids as [[|id ids]|]; cbn [_devices aimed_at].
  - apply (all_aimed []).
  - apply (selected_aimed (id :: ids) []).
  - apply (all_aimed []).
Qed.

(** X24: the sync service returns normally and changes no manager. It
    goes through the devices it is aimed at in the order of [DEVICES],
    one after the other: on each it calls the client's [sync], then
    opens that device's own configuration file, then asks for a state
    write with a forced refresh, and apart from log lines it does
    nothing else. The devices it is aimed at are those of [DEVICES]
    whose entity ID is in the list, or every device when the call
    carries no list or an empty one. *)
Theorem sync_service_syncs_each_target
    (entity_ids : option (list string)) (h : Hass) :
  let aimed := aimed_at entity_ids (hass_devices h) in
  let call := _sync_service entity_ids in
  let t := trace_of call h in
  outcome_of call h = Returned tt
  /\ hass_devices (state_of call h) = hass_devices h
  /\ without_logs t =
       flat_map (fun d => [client_sync; file_open_w (_config_path (entity d));
                           schedule_update_ha_state true]) aimed
  /\ client_calls t = replicate (length aimed) client_sync
  /\ state_pushes t = replicate (length aimed) true
  /\ file_opens t = (fun d => _config_path (entity d)) <$> aimed
  /\ (entity_ids = None \/ entity_ids = Some [] -> aimed = hass_devices h)
  /\ (forall ids, entity_ids = Some ids -> ids <> [] ->
      forall d, d ∈ aimed <-> d ∈ hass_devices h /\ entity_id d ∈ ids).
Proof.
  cbn zeta.
  pose proof (sync_rounds _ _ h (devices_aimed entity_ids (hass_devices h)))
    as Hloop.
  cbn zeta in Hloop.
  unfold _sync_service, _apply_service.
  unfold outcome_of, state_of, trace_of in *.
  rewrite run_bind. cbn [run get]. rewrite triple_eta. cbn [app].
  destruct Hloop as (? & ? & ? & ? & ? & ?).
  do 6 (split; [done|]). split.
  - by intros [-> | ->].
  - intros ids -> Hne d. destruct ids as [|id ids]; [done|].
    cbn [aimed_at]. rewrite list_elem_of_filter. tauto.
Qed.

Example sync_service_on_the_house :
  client_calls (trace_of (_sync_service None) Estate.house)
    = [client_sync; client_sync]
  /\ file_opens (trace_of (_sync_service (Some ["remote.attic"; "remote.x"]))
                   Estate.house)
    = ["/config/harmony_attic.conf"]
  /\ dom (hass_files (state_of (_sync_service None) Estate.house))
    = {["/config/harmony_den.conf"; "/config/harmony_attic.conf"]}.
Proof. repeat split; reflexivity. Qed.
